(** * daily-cli: task lifecycle, time accounting and daily capacity

  A shallow embedding of the task engine of [main.go]: the [Task]
  record, the YAML-backed day buckets, [updateStatus], the interactive
  add / edit / delete / next flows, [remainingMinutesToday] and the
  workload metrics of [listTasksInteractive]. *)

From Stdlib Require Import ZArith List Bool Lia Ascii String.
From Stdlib Require Import PrimFloat Uint63.
From stdpp Require Import gmap strings list pretty.

Local Open Scope string_scope.
Local Open Scope Z_scope.

(** ** Go machine integers

  Every released binary targets amd64 or arm64, so Go's [int] and
  [int64] are both 64-bit two's-complement words.  A value is a [Z];
  each arithmetic operation is followed by [wrap]. *)
Module GoInt.

Definition min_int : Z := - 2 ^ 63.
Definition max_int : Z := 2 ^ 63 - 1.

Definition in_range (z : Z) : Prop := min_int <= z <= max_int.

#[global]
Instance in_range_dec z : Decision (in_range z).
Proof. unfold in_range. apply _. Defined.

Definition wrap (z : Z) : Z := (z + 2 ^ 63) mod 2 ^ 64 - 2 ^ 63.

Definition add (a b : Z) : Z := wrap (a + b).
Definition sub (a b : Z) : Z := wrap (a - b).

(** Go's [/] truncates toward zero. *)
Definition quo (a b : Z) : Z := wrap (Z.quot a b).

End GoInt.

(** ** Types *)

(** [Task] represents a single task entry. *)
Record Task := mkTask {
  Title : string;
  Estimated : Z;
  Actual : Z;
  Status : string;
  StartedAt : Z
}.


(** [TaskData] is Go's [map[string][]Task], keyed by the day. *)
Abbreviation TaskData := (gmap string (list Task)).

(** [data[day]]: a missing key reads as the nil slice. *)
Definition day_tasks (data : TaskData) (day : string) : list Task :=
  default [] (data !! day).

Definition maxDailyMinutes : Z := 480.

(** ** The world: [tasks.yaml], the terminal, and errors

    [loadTasks] and [saveTasks] read and write one YAML file next to the
    executable.  The file either does not exist, cannot be read or parsed,
    or holds a [TaskData]; marshalling is taken to be faithful.  A write
    can fail ([write_error]).  What a command prints is kept in [stdout],
    most recent line last. *)
Inductive FileState :=
| Missing
| Unreadable (err : string)
| Holds (data : TaskData).

(** One [fmt.Print*] call.  The progress bars of the report are rendered
    by an external widget; the report lines keep the numbers they show. *)
Inductive Output :=
| Text (s : string)
| DailyPlan (totalEst : Z)
| DailyWorked (totalActual : Z)
| DailyAchieved (achievedWork totalEst : Z)
| RemainingVsTime (ratio : float) (minutesLeft remainingWork : Z).

Record World := mkWorld {
  tasks_yaml : FileState;
  write_error : option string;
  stdout : list Output
}.

(** A Go [(value, error)] pair: [Err e] is a non-nil error. *)
Inductive result (A : Type) :=
| Ok (a : A)
| Err (e : string).
Arguments Ok {A} a.
Arguments Err {A} e.

Definition IO (A : Type) : Type := World -> result A * World.

Definition ret {A} (a : A) : IO A := fun w => (Ok a, w).
Definition fail {A} (e : string) : IO A := fun w => (Err e, w).
Definition bind {A B} (c : IO A) (k : A -> IO B) : IO B :=
  fun w => match c w with
           | (Ok a, w') => k a w'
           | (Err e, w') => (Err e, w')
           end.

Declare Scope io_scope.
Delimit Scope io_scope with io.
Notation "x <- c ;; k" := (bind c (fun x => k))
  (at level 100, c at next level, right associativity) : io_scope.
Notation "c ;;; k" := (bind c (fun _ => k))
  (at level 100, right associativity) : io_scope.
Local Open Scope io_scope.

Definition print (o : Output) : IO unit :=
  fun w => (Ok tt, mkWorld (tasks_yaml w) (write_error w) (stdout w ++ [o])%list).

Definition println (s : string) : IO unit := print (Text s).

(** [_ = f()]: run [c] and drop its error. *)
Definition ignore_error (c : IO unit) : IO unit :=
  fun w => (Ok tt, snd (c w)).

Definition loadTasks : IO TaskData :=
  fun w => match tasks_yaml w with
           | Missing => (Ok ∅, w)
           | Unreadable e => (Err e, w)
           | Holds data => (Ok data, w)
           end.

Definition saveTasks (data : TaskData) : IO unit :=
  fun w => match write_error w with
           | Some e => (Err e, w)
           | None => (Ok tt, mkWorld (Holds data) None (stdout w))
           end.

(** The day's tasks as the next [loadTasks] would return them. *)
Definition stored_tasks (w : World) (day : string) : list Task :=
  match tasks_yaml w with
  | Holds data => day_tasks data day
  | _ => []
  end.

(** ** [strconv] *)
Module strconv.

Definition digit (c : ascii) : option Z :=
  let n := Z.of_N (N_of_ascii c) in
  if (48 <=? n) && (n <=? 57) then Some (n - 48) else None.

Fixpoint digits (s : string) (acc : Z) : option Z :=
  match s with
  | EmptyString => Some acc
  | String c rest =>
      match digit c with
      | Some d => digits rest (acc * 10 + d)
      | None => None
      end
  end.

(** [strconv.Atoi]: an optional sign and one or more decimal digits.  The
    boolean is [err == nil]; a syntax error carries 0 and a range error
    the nearest bound. *)
Definition Atoi (s : string) : Z * bool :=
  let '(negative, body) :=
    match s with
    | String "-" rest => (true, rest)
    | String "+" rest => (false, rest)
    | _ => (false, s)
    end in
  match body with
  | EmptyString => (0, false)
  | _ =>
      match digits body 0 with
      | None => (0, false)
      | Some n =>
          let v := if negative then - n else n in
          if v <? GoInt.min_int then (GoInt.min_int, false)
          else if v >? GoInt.max_int then (GoInt.max_int, false)
          else (v, true)
      end
  end.

(** [strconv.Itoa]: decimal, with a leading minus sign. *)
Definition Itoa (n : Z) : string := pretty n.

End strconv.

(** ** [time]

    A [time.Time] of the current local day is kept as the nanoseconds since
    local midnight, the zone's offset being constant over the day, so that
    [time.Date(now.Year(), now.Month(), now.Day(), h, m, 0, 0, loc)] is
    [Date h m] and a [Duration] is a difference of two such numbers. *)
Module time.

Definition Second : Z := 1000000000.
Definition Minute : Z := 60 * Second.
Definition Hour : Z := 60 * Minute.

Definition Time : Type := Z.

Definition Date (hour min : Z) : Time := hour * Hour + min * Minute.
Definition Before (t u : Time) : bool := t <? u.
Definition After (t u : Time) : bool := t >? u.
Definition Sub (t u : Time) : Z := t - u.

(** [int(d.Minutes())].  [Minutes] returns
    [float64(d / Minute) + float64(d % Minute) / (60 * 1e9)]; within a day
    both conversions are exact and the fraction stays below 1 after
    rounding, so the conversion back to [int] yields [d / Minute]. *)
Definition whole_minutes (d : Z) : Z := Z.quot d Minute.

End time.

(** The clock as one command reads it: [todayKey()], the key of the next
    day, [time.Now().Unix()] and [time.Now()] as a local time of day. *)
Record Clock := mkClock {
  todayKey : string;
  tomorrowKey : string;
  Unix : Z;
  Now : time.Time
}.

(** ** Prompts ([promptui])

    The user's answer to a prompt is a parameter: [Ok text] when a line
    is submitted, [Err e] when [Run] returns the error [e]. *)

(** [promptui.Prompt.Run] with a [Validate] function: a line that fails
    validation is not accepted and the prompt stays open for the next
    attempt; the input ending reads as [^D]. *)
Fixpoint Prompt_Run (validate : string -> bool)
    (attempts : list (result string)) : result string :=
  match attempts with
  | [] => Err "^D"
  | Err e :: _ => Err e
  | Ok line :: rest =>
      if validate line then Ok line else Prompt_Run validate rest
  end.

(** [promptui.Select.Run]: the index and the item picked.  The library
    only lets the cursor rest on a listed item. *)
Definition Select_Run {A} (items : list A) (pick : result nat)
    : result (nat * A) :=
  match pick with
  | Err e => Err e
  | Ok i =>
      match items !! i with
      | Some item => Ok (i, item)
      | None => Err "^D"
      end
  end.

Definition promptWithCursor (label defaultVal : string)
    (answer : result string) : result string :=
  match answer with
  | Ok res =>
      if String.eqb res "q" && negb (String.eqb defaultVal "q")
      then Err "q" else Ok res
  | Err e => Err e
  end.

(** The recurring
    [if err.Error() == "interrupt" || err.Error() == "q" { return nil }; return err]. *)
Definition prompt_failed (e : string) : IO unit :=
  if String.eqb e "interrupt" || String.eqb e "q" then ret tt else fail e.

(** ** Task logic *)

Definition estimate_valid (input : string) : bool :=
  let '(val, ok) := strconv.Atoi input in
  negb (negb ok || (val <=? 0)).

Definition sum_estimated (tasks : list Task) : Z :=
  fold_left (fun total t => GoInt.add total (Estimated t)) tasks 0.

Definition addTaskInteractive (clk : Clock) (tommorow : bool)
    (titleAnswer : result string) (estAnswers : list (result string))
    : IO unit :=
  data <- loadTasks ;;
  let today := if tommorow then tomorrowKey clk else todayKey clk in
  match promptWithCursor "Task Title" "" titleAnswer with
  | Err e => prompt_failed e
  | Ok title =>
      match Prompt_Run estimate_valid estAnswers with
      | Err e => prompt_failed e
      | Ok estInput =>
          let estimated := fst (strconv.Atoi estInput) in
          let total := sum_estimated (day_tasks data today) in
          (if GoInt.add total estimated >? maxDailyMinutes
           then println "total estimated time exceeds 8 hours"
           else ret tt) ;;;
          let task := mkTask title estimated 0 "pending" 0 in
          saveTasks (<[today := (day_tasks data today ++ [task])%list]> data)
      end
  end.

Definition remainingMinutesToday (now : time.Time) : Z :=
  let workStart := time.Date 8 30 in
  let lunchStart := time.Date 12 30 in
  let lunchEnd := time.Date 13 30 in
  let workEnd := time.Date 17 30 in
  if time.Before now workStart then 480
  else if time.After now workEnd then 0
  else
    let minutes := 0 in
    if time.Before now lunchStart then
      let minutes :=
        GoInt.add minutes (time.whole_minutes (time.Sub lunchStart now)) in
      GoInt.add minutes 240
    else if time.Before now lunchEnd then GoInt.add minutes 240
    else if time.Before now workEnd then
      GoInt.add minutes (time.whole_minutes (time.Sub workEnd now))
    else minutes.

(** The four accumulators of the loop that opens [listTasksInteractive]. *)
Record Totals := mkTotals {
  totalActual : Z;
  totalEst : Z;
  remainingWork : Z;
  achievedWork : Z
}.

Definition tally (acc : Totals) (t : Task) : Totals :=
  let totalActual' := GoInt.add (totalActual acc) (Actual t) in
  let totalEst' := GoInt.add (totalEst acc) (Estimated t) in
  if String.eqb (Status t) "done" then
    mkTotals totalActual' totalEst' (remainingWork acc)
             (GoInt.add (achievedWork acc) (Estimated t))
  else if negb (String.eqb (Status t) "done")
          && negb (String.eqb (Status t) "cancelled") then
    let remainingTime := GoInt.sub (Estimated t) (Actual t) in
    let remainingTime := if remainingTime <? 0 then 0 else remainingTime in
    mkTotals totalActual' totalEst'
             (GoInt.add (remainingWork acc) remainingTime) (achievedWork acc)
  else mkTotals totalActual' totalEst' (remainingWork acc) (achievedWork acc).

Definition dayTotals (tasks : list Task) : Totals :=
  fold_left tally tasks (mkTotals 0 0 0 0).

(** [float64(n)] for an [int]: round to nearest, ties to even. *)
Definition float64 (n : Z) : float :=
  if n =? GoInt.min_int then
    PrimFloat.opp (PrimFloat.mul 2 (PrimFloat.of_uint63 4611686018427387904))
  else if n <? 0 then PrimFloat.opp (PrimFloat.of_uint63 (Uint63.of_Z (- n)))
  else PrimFloat.of_uint63 (Uint63.of_Z n).

Definition workloadRatio (remainingWork minutesLeft : Z) : float :=
  let ratio := float64 remainingWork in
  if minutesLeft >? 0 then PrimFloat.div ratio (float64 minutesLeft)
  else 1%float.

(** The four report lines; the last three are left out for tomorrow. *)
Definition printReport (tommorow : bool) (tot : Totals) (minutesLeft : Z)
    (ratio : float) : IO unit :=
  print (DailyPlan (totalEst tot)) ;;;
  if negb tommorow then
    print (DailyWorked (totalActual tot)) ;;;
    print (DailyAchieved (achievedWork tot) (totalEst tot)) ;;;
    print (RemainingVsTime ratio minutesLeft (remainingWork tot))
  else ret tt.

(** The answers the user gives in one round of the view/edit loop. *)
Record EditAnswers := mkEditAnswers {
  edit_pick : result nat;
  edit_title : result string;
  edit_est : result string;
  edit_actual : result string;
  edit_status : result nat
}.

Definition status_items : list string :=
  ["pending"; "started"; "done"; "cancelled"].

(** The [for { ... }] loop of [listTasksInteractive]: [tasks] is the slice
    the rounds mutate in place, [data] the map it is stored back into. *)
Fixpoint editLoop (today : string) (data : TaskData) (tasks : list Task)
    (rounds : list EditAnswers) : IO unit :=
  match rounds with
  | [] => prompt_failed "^D"
  | a :: rest =>
    match Select_Run tasks (edit_pick a) with
    | Err e => prompt_failed e
    | Ok (index, task) =>
    match promptWithCursor "Title" (Title task) (edit_title a) with
    | Err e => prompt_failed e
    | Ok title =>
    match promptWithCursor "Estimated (minutes)"
            (strconv.Itoa (Estimated task)) (edit_est a) with
    | Err e => prompt_failed e
    | Ok estStr =>
    match promptWithCursor "Actual (minutes)"
            (strconv.Itoa (Actual task)) (edit_actual a) with
    | Err e => prompt_failed e
    | Ok actualStr =>
      let estimated := fst (strconv.Atoi estStr) in
      let actual := fst (strconv.Atoi actualStr) in
      match Select_Run status_items (edit_status a) with
      | Err e => prompt_failed e
      | Ok (_, status) =>
          let task' := mkTask title estimated actual status (StartedAt task) in
          let tasks' := <[index := task']> tasks in
          let data' := <[today := tasks']> data in
          ignore_error (saveTasks data') ;;;
          editLoop today data' tasks' rest
      end
    end end end end
  end.

Definition listTasksInteractive (clk : Clock) (tommorow : bool)
    (rounds : list EditAnswers) : IO unit :=
  data <- loadTasks ;;
  let today := if tommorow then tomorrowKey clk else todayKey clk in
  let tasks := day_tasks data today in
  if Nat.eqb (length tasks) 0 then println "No tasks available."
  else
    let tot := dayTotals tasks in
    let minutesLeft := remainingMinutesToday (Now clk) in
    let ratio := workloadRatio (remainingWork tot) minutesLeft in
    printReport tommorow tot minutesLeft ratio ;;;
    editLoop today data tasks rounds.

(** The [switch status] of [updateStatus], applied to [tasks[index]]. *)
Definition applyStatus (now : Z) (status : string) (t : Task) : Task :=
  if String.eqb status "started" then
    mkTask (Title t) (Estimated t) (Actual t) "started" now
  else if String.eqb status "done" || String.eqb status "cancelled"
          || String.eqb status "pending" then
    if negb (StartedAt t =? 0) then
      let elapsed := GoInt.quo (GoInt.sub now (StartedAt t)) 60 in
      mkTask (Title t) (Estimated t) (GoInt.add (Actual t) elapsed) status 0
    else mkTask (Title t) (Estimated t) (Actual t) status (StartedAt t)
  else mkTask (Title t) (Estimated t) (Actual t) status (StartedAt t).

Definition updateStatus (clk : Clock) (index : Z) (status : string)
    : IO unit :=
  data <- loadTasks ;;
  let today := todayKey clk in
  let tasks := day_tasks data today in
  if (index <? 0) || (index >=? Z.of_nat (length tasks)) then
    fail "invalid task index"
  else
    let tasks' :=
      alter (applyStatus (Unix clk) status) (Z.to_nat index) tasks in
    saveTasks (<[today := tasks']> data).

(** [for _, t := range tasks { if t.Status == status ... }]: is there one. *)
Definition any_status (status : string) (tasks : list Task) : bool :=
  existsb (fun t => String.eqb (Status t) status) tasks.

(** The second loop of [startNextPendingTask], from index [i] on. *)
Fixpoint offerPending (clk : Clock) (i : nat) (tasks : list Task)
    (choices : list (result nat)) : IO unit :=
  match tasks with
  | [] => println "No pending tasks to start."
  | t :: rest =>
      if String.eqb (Status t) "pending" then
        match choices with
        | [] => prompt_failed "^D"
        | pick :: choices' =>
            match Select_Run ["Start"; "Skip"] pick with
            | Err e => prompt_failed e
            | Ok (_, choice) =>
                if String.eqb choice "Start" then
                  println ("Starting '" +:+ Title t +:+ "'...") ;;;
                  updateStatus clk (Z.of_nat i) "started"
                else offerPending clk (S i) rest choices'
            end
        end
      else offerPending clk (S i) rest choices
  end.

Definition startNextPendingTask (clk : Clock) (choices : list (result nat))
    : IO unit :=
  data <- loadTasks ;;
  let today := todayKey clk in
  let tasks := day_tasks data today in
  if any_status "started" tasks then
    println
      "A task is already started. Please finish it before starting another one."
  else offerPending clk 0 tasks choices.

(** [for i, t := range tasks { if t.Status == "started" { return i } }]. *)
Fixpoint firstStarted (i : nat) (tasks : list Task) : option (nat * Task) :=
  match tasks with
  | [] => None
  | t :: rest =>
      if String.eqb (Status t) "started" then Some (i, t)
      else firstStarted (S i) rest
  end.

Definition finishCurrentTask (clk : Clock) : IO unit :=
  data <- loadTasks ;;
  match firstStarted 0 (day_tasks data (todayKey clk)) with
  | Some (i, _) => updateStatus clk (Z.of_nat i) "done"
  | None => println "No task is currently started."
  end.

Definition stopCurrentTask (clk : Clock) : IO unit :=
  data <- loadTasks ;;
  match firstStarted 0 (day_tasks data (todayKey clk)) with
  | Some (i, t) =>
      println ("Stopping task '" +:+ Title t +:+ "'...") ;;;
      updateStatus clk (Z.of_nat i) "pending"
  | None => println "No task is currently started."
  end.

Definition deleteTaskInteractive (clk : Clock) (pick : result nat)
    : IO unit :=
  data <- loadTasks ;;
  let today := todayKey clk in
  let tasks := day_tasks data today in
  if Nat.eqb (length tasks) 0 then println "No tasks to delete."
  else
    match Select_Run tasks pick with
    | Err e => prompt_failed e
    | Ok (index, _) =>
        saveTasks
          (<[today := (take index tasks ++ drop (S index) tasks)%list]> data)
    end.

Definition selectTaskAndSetStatus (clk : Clock) (pick statusPick : result nat)
    : IO unit :=
  data <- loadTasks ;;
  let tasks := day_tasks data (todayKey clk) in
  if Nat.eqb (length tasks) 0 then println "No tasks available."
  else
    match Select_Run tasks pick with
    | Err e => prompt_failed e
    | Ok (index, _) =>
        match Select_Run status_items statusPick with
        | Err e => prompt_failed e
        | Ok (_, res) => updateStatus clk (Z.of_nat index) res
        end
    end.

(** ** Durations and their display *)
Module duration.

Definition minDuration : Z := GoInt.min_int.
Definition maxDuration : Z := GoInt.max_int.

(** [uint64(x)+uint64(x) < uint64(y)]. *)
Definition lessThanHalf (x y : Z) : bool :=
  (x mod 2 ^ 64 + x mod 2 ^ 64) mod 2 ^ 64 <? y mod 2 ^ 64.

(** [time.Duration.Round]: the nearest multiple of [m], halfway values
    away from zero, the extreme [Duration] on overflow. *)
Definition Round (d m : Z) : Z :=
  if m <=? 0 then d
  else
    let r := Z.rem d m in
    if d <? 0 then
      let r := GoInt.wrap (- r) in
      if lessThanHalf r m then GoInt.add d r
      else
        let d1 := GoInt.add (GoInt.sub d m) r in
        if d1 <? d then d1 else minDuration
    else
      if lessThanHalf r m then GoInt.sub d r
      else
        let d1 := GoInt.sub (GoInt.add d m) r in
        if d1 >? d then d1 else maxDuration.

End duration.

(** The hours, minutes and seconds [formatDuration] prints. *)
Definition formatDuration_fields (d : Z) : Z * Z * Z :=
  let d := duration.Round d time.Second in
  let h := GoInt.quo d time.Hour in
  let d := GoInt.sub d (GoInt.wrap (h * time.Hour)) in
  let m := GoInt.quo d time.Minute in
  let d := GoInt.sub d (GoInt.wrap (m * time.Minute)) in
  let s := GoInt.quo d time.Second in
  (h, m, s).

(** [formatDuration] formats a [time.Duration] for display. *)
Definition formatDuration (d : Z) : string :=
  let '(h, m, s) := formatDuration_fields d in
  if h >? 0 then
    strconv.Itoa h +:+ "h " +:+ strconv.Itoa m +:+ "m "
      +:+ strconv.Itoa s +:+ "s"
  else strconv.Itoa m +:+ "m " +:+ strconv.Itoa s +:+ "s".

(** ** Bar colours

    [setColorGradient] returns [progress.WithSolidFill(colour)]; the
    model returns the colour. *)
Set Warnings "-inexact-float".

Definition setColorGradient (ratio : float) (inverted : bool) : string :=
  if inverted then
    if PrimFloat.leb 1 ratio then "#f53333"
    else if PrimFloat.leb 0.9 ratio then "#f56a33"
    else if PrimFloat.leb 0.8 ratio then "#f58e33"
    else if PrimFloat.leb 0.7 ratio then "#f5ce33"
    else if PrimFloat.leb 0.6 ratio then "#33f56d"
    else "#03befc"
  else
    if PrimFloat.leb 1 ratio then "#03befc"
    else if PrimFloat.leb 0.9 ratio then "#33f56d"
    else if PrimFloat.leb 0.7 ratio then "#f5ce33"
    else if PrimFloat.leb 0.6 ratio then "#f58e33"
    else if PrimFloat.leb 0.5 ratio then "#f56a33"
    else "#f53333".

(** ** [currentTask]

    The bar itself is drawn by the [progress] widget: [ViewAs fill percent]
    stands for [progress.New(WithSolidFill(fill)).ViewAs(percent)]. *)
Section CurrentTask.

Variable ViewAs : string -> float -> string.

Definition newline : string := String (ascii_of_nat 10) "".

(** [fmt.Printf] with its format expanded: the text printed, newlines
    included. *)
Definition printf (s : string) : IO unit := print (Text s).

Definition currentTask (clk : Clock) : IO unit :=
  data <- loadTasks ;;
  match firstStarted 0 (day_tasks data (todayKey clk)) with
  | Some (i, t) =>
      let elapsed := GoInt.quo (GoInt.sub (Unix clk) (StartedAt t)) 60 in
      let clock := PrimFloat.div (float64 elapsed) (float64 (Estimated t)) in
      let clockBar := ViewAs (setColorGradient clock true) clock in
      printf ("Task Clock: " +:+ clockBar +:+ " [" +:+ strconv.Itoa elapsed
              +:+ "/" +:+ strconv.Itoa (Estimated t) +:+ " min used]"
              +:+ newline +:+ newline) ;;;
      printf ("Current task: [" +:+ strconv.Itoa (Z.of_nat i) +:+ "] "
              +:+ Title t +:+ " - started " +:+ strconv.Itoa elapsed
              +:+ "min ago" +:+ newline)
  | None => println "No task is currently started."
  end.

End CurrentTask.

(** ** Notes logic

    [notes.yaml] is a second file, a [map[string][]string]; the commands
    on it thread their own world. *)
Abbreviation NoteData := (gmap string (list string)).

Inductive NotesFile :=
| NotesMissing
| NotesUnreadable (err : string)
| NotesHold (data : NoteData).

(** [notes_stdout] keeps the lines printed, without their newline. *)
Record NotesWorld := mkNotesWorld {
  notes_yaml : NotesFile;
  notes_write_error : option string;
  notes_stdout : list string
}.

Definition loadNotes (w : NotesWorld) : result NoteData :=
  match notes_yaml w with
  | NotesMissing => Ok ∅
  | NotesUnreadable e => Err e
  | NotesHold data => Ok data
  end.

Definition saveNotes (data : NoteData) (w : NotesWorld)
    : result unit * NotesWorld :=
  match notes_write_error w with
  | Some e => (Err e, w)
  | None => (Ok tt, mkNotesWorld (NotesHold data) None (notes_stdout w))
  end.

(** [data[day]] on the notes map. *)
Definition day_notes (data : NoteData) (day : string) : list string :=
  default [] (data !! day).

Definition parseNoteDayArg (clk : Clock) (args : list string) : string :=
  match args with
  | arg :: _ => if negb (String.eqb arg "") then arg else todayKey clk
  | [] => todayKey clk
  end.

Definition addNoteForToday (clk : Clock) (note : string) (w : NotesWorld)
    : result unit * NotesWorld :=
  match loadNotes w with
  | Err e => (Err e, w)
  | Ok data =>
      let today := todayKey clk in
      saveNotes (<[today := (day_notes data today ++ [note])%list]> data) w
  end.

(** The lines [for i, note := range notes] prints, from number [i + 1]. *)
Fixpoint numbered_notes (i : Z) (notes : list string) : list string :=
  match notes with
  | [] => []
  | note :: rest =>
      (strconv.Itoa (GoInt.add i 1) +:+ ". " +:+ note)
        :: numbered_notes (GoInt.add i 1) rest
  end.

Definition showNotesForToday (clk : Clock) (w : NotesWorld)
    : result unit * NotesWorld :=
  match loadNotes w with
  | Err e => (Err e, w)
  | Ok data =>
      let today := todayKey clk in
      let notes := day_notes data today in
      if Nat.eqb (length notes) 0 then
        (Ok tt,
         mkNotesWorld (notes_yaml w) (notes_write_error w)
           (notes_stdout w ++ ["No notes for today."])%list)
      else
        (Ok tt,
         mkNotesWorld (notes_yaml w) (notes_write_error w)
           (notes_stdout w
            ++ ("Notes for today (" +:+ today +:+ "):")
               :: numbered_notes 0 notes)%list)
  end.

(** * Vocabulary of the statements *)

(** A world whose file can be read ([data] is what [loadTasks] returns)
    and written. *)
Definition healthy (w : World) (data : TaskData) : Prop :=
  loadTasks w = (Ok data, w) /\ write_error w = None.

(** The day's summed estimates, in unbounded integers. *)
Definition summed_estimates (tasks : list Task) : Z :=
  foldr (fun t total => Estimated t + total) 0 tasks.

Definition capacity_warning : list Output :=
  [Text "total estimated time exceeds 8 hours"].

(** An estimate line the prompt does not accept: not a decimal integer
    of Go's [int] range, or not positive. *)
Definition refused_estimate (answer : result string) : Prop :=
  exists line,
    answer = Ok line /\
    (snd (strconv.Atoi line) = false \/ fst (strconv.Atoi line) <= 0).

(** The remaining work as the specification words it: over the tasks that
    are neither done nor cancelled, the sum of
    [max(0, estimatedMinutes - actualMinutes)], in unbounded integers. *)
Definition remaining_work_spec (tasks : list Task) : Z :=
  foldr Z.add 0
    ((fun t => Z.max 0 (Estimated t - Actual t)) <$>
     filter (fun t => Status t <> "done" /\ Status t <> "cancelled") tasks).

(** A task's timer runs exactly when the task is started. *)
Definition timer_matches_status (t : Task) : Prop :=
  StartedAt t <> 0 <-> Status t = "started".

#[global]
Instance timer_matches_status_dec t : Decision (timer_matches_status t).
Proof. unfold timer_matches_status. apply _. Defined.

Definition data_invariant (data : TaskData) : Prop :=
  forall day tasks,
    data !! day = Some tasks -> Forall timer_matches_status tasks.

Definition world_invariant (w : World) : Prop :=
  forall data, tasks_yaml w = Holds data -> data_invariant data.

(** [c] keeps the invariant of the file, and a value it returns
    satisfies [Q]. *)
Definition keeps_invariant {A} (c : IO A) (Q : A -> Prop) : Prop :=
  forall w,
    world_invariant w ->
    world_invariant (snd (c w)) /\ forall a, fst (c w) = Ok a -> Q a.

(** A day of three tasks, the second one running since second 1000. *)
Definition sample_day : string := "2025-03-14".
Definition sample_tasks : list Task :=
  [mkTask "write report" 30 0 "pending" 0;
   mkTask "review patch" 60 5 "started" 1000;
   mkTask "plan sprint" 45 0 "pending" 0].
Definition sample_data : TaskData := {[ sample_day := sample_tasks ]}.
Definition sample_world : World := mkWorld (Holds sample_data) None [].
Definition sample_clock : Clock :=
  mkClock sample_day "2025-03-15" 1600 (time.Date 12 0).

(** A day with one finished and one pending task. *)
Definition two_task_tasks : list Task :=
  [mkTask "plan sprint" 45 0 "done" 0;
   mkTask "write report" 30 0 "pending" 0].
Definition two_task_data : TaskData := {[ sample_day := two_task_tasks ]}.

Ltac fits_int := vm_compute; split; discriminate.

(** How many tasks of a bucket are started. *)
Definition started_count (tasks : list Task) : nat :=
  length (filter (fun t => Status t = "started") tasks).

(** At most one task is started in each day. *)
Definition single_runner (data : TaskData) : Prop :=
  forall day tasks, data !! day = Some tasks -> (started_count tasks <= 1)%nat.

(** [P] holds of the data the next [loadTasks] returns, if it returns. *)
Definition file_holds (P : TaskData -> Prop) (w : World) : Prop :=
  forall data, loadTasks w = (Ok data, w) -> P data.

(** From a world satisfying [P], [c] ends in a world satisfying [R a]
    when it returns [a], and [E] when it returns an error. *)
Definition triple {A} (E P : World -> Prop) (c : IO A)
    (R : A -> World -> Prop) : Prop :=
  forall w,
    P w ->
    match c w with
    | (Ok a, w') => R a w'
    | (Err _, w') => E w'
    end.

Definition started_bit (t : Task) : nat :=
  if decide (Status t = "started") then 1%nat else 0%nat.

(** The sums of the report, in unbounded integers. *)
Definition summed_actuals (tasks : list Task) : Z :=
  foldr (fun t total => Actual t + total) 0 tasks.

Definition achieved_work_spec (tasks : list Task) : Z :=
  foldr Z.add 0
    (Estimated <$> filter (fun t => Status t = "done") tasks).

(** The first index at or after which a task has the given status. *)
Definition first_with_status (status : string) (tasks : list Task) (i : nat)
    (t : Task) : Prop :=
  tasks !! i = Some t /\ Status t = status /\
  forall j tj, (j < i)%nat -> tasks !! j = Some tj -> Status tj <> status.


(** * Properties *)

(** ** Machine arithmetic *)
Module GoIntFacts.
Import GoInt.

Lemma wrap_id z : in_range z -> wrap z = z.
Proof.
  unfold in_range, min_int, max_int, wrap. intros H.
  rewrite Z.mod_small by lia. lia.
Qed.

Lemma add_exact a b : in_range (a + b) -> add a b = a + b.
Proof. apply wrap_id. Qed.

Lemma sub_exact a b : in_range (a - b) -> sub a b = a - b.
Proof. apply wrap_id. Qed.

Lemma add_0_r a : in_range a -> add a 0 = a.
Proof. intros H. unfold add. rewrite Z.add_0_r. by apply wrap_id. Qed.

(** On a non-negative dividend truncation and floor agree. *)
Lemma quo_floor a b : 0 <= a -> 0 < b -> in_range a -> quo a b = a / b.
Proof.
  intros Ha Hb Hr. unfold quo. rewrite Z.quot_div_nonneg by lia.
  apply wrap_id. unfold in_range, min_int, max_int in *.
  pose proof (Z.div_pos a b Ha Hb).
  pose proof (Z.div_le_upper_bound a b max_int Hb). unfold max_int in *.
  split; [lia|]. apply H0. nia.
Qed.

End GoIntFacts.

(** ** The store *)

Lemma day_tasks_insert (data : TaskData) day l :
  day_tasks (<[day := l]> data) day = l.
Proof. unfold day_tasks. by rewrite lookup_insert_eq. Qed.

Lemma day_tasks_insert_ne (data : TaskData) day day' l :
  day <> day' -> day_tasks (<[day := l]> data) day' = day_tasks data day'.
Proof. intros Hne. unfold day_tasks. by rewrite lookup_insert_ne. Qed.

Lemma stored_after_save data day l out :
  stored_tasks (mkWorld (Holds (<[day := l]> data)) None out) day = l.
Proof. unfold stored_tasks, day_tasks. simpl. by rewrite lookup_insert_eq. Qed.

Lemma stored_of_healthy w data day :
  healthy w data -> stored_tasks w day = day_tasks data day.
Proof.
  intros [Hl _]. unfold loadTasks, stored_tasks in *.
  destruct (tasks_yaml w); inversion Hl; subst; [|done].
  unfold day_tasks. by rewrite lookup_empty.
Qed.

Lemma healthy_after_save data out :
  healthy (mkWorld (Holds data) None out) data.
Proof. by split. Qed.

(** ** [updateStatus] *)

(** With a readable, writable file and an index in range, [updateStatus]
    rewrites exactly the addressed task of today's bucket. *)
Lemma updateStatus_run clk i status w data t :
  healthy w data ->
  day_tasks data (todayKey clk) !! i = Some t ->
  updateStatus clk (Z.of_nat i) status w =
    (Ok tt,
     mkWorld
       (Holds (<[todayKey clk :=
                 alter (applyStatus (Unix clk) status) i
                       (day_tasks data (todayKey clk))]> data))
       None (stdout w)).
Proof.
  intros [Hl Hw] Hi. unfold updateStatus, bind. rewrite Hl.
  apply lookup_lt_Some in Hi.
  destruct (Z.ltb_spec (Z.of_nat i) 0); [lia|].
  destruct (Z.geb_spec (Z.of_nat i)
              (Z.of_nat (length (day_tasks data (todayKey clk))))); [lia|].
  simpl. unfold saveTasks. by rewrite Hw, Nat2Z.id.
Qed.

Lemma updateStatus_out_of_range clk index status w data :
  loadTasks w = (Ok data, w) ->
  (index < 0 \/ Z.of_nat (length (day_tasks data (todayKey clk))) <= index) ->
  updateStatus clk index status w = (Err "invalid task index", w).
Proof.
  intros Hl Hi. unfold updateStatus, bind. rewrite Hl.
  destruct (Z.ltb_spec index 0); [done|].
  destruct (Z.geb_spec index
              (Z.of_nat (length (day_tasks data (todayKey clk))))); [done|lia].
Qed.

Lemma applyStatus_leave now status t :
  status ∈ ["done"; "cancelled"; "pending"] ->
  applyStatus now status t =
    if StartedAt t =? 0
    then mkTask (Title t) (Estimated t) (Actual t) status (StartedAt t)
    else mkTask (Title t) (Estimated t)
           (GoInt.add (Actual t) (GoInt.quo (GoInt.sub now (StartedAt t)) 60))
           status 0.
Proof.
  intros Hs. unfold applyStatus.
  repeat (apply elem_of_cons in Hs as [->|Hs]);
    [simpl; by destruct (StartedAt t =? 0)..|].
  by apply elem_of_nil in Hs.
Qed.

Lemma applyStatus_started now t :
  applyStatus now "started" t =
    mkTask (Title t) (Estimated t) (Actual t) "started" now.
Proof. reflexivity. Qed.

(** The elapsed minutes of a span that runs forward in time. *)
Lemma elapsed_floor now started :
  started <= now -> GoInt.in_range (now - started) ->
  GoInt.quo (GoInt.sub now started) 60 = (now - started) / 60.
Proof.
  intros Hle Hr. rewrite GoIntFacts.sub_exact by done.
  apply GoIntFacts.quo_floor; [lia | lia | done].
Qed.

(** C1: leaving a running task (startedAtEpoch nonzero) for done,
    cancelled or pending adds floor((now - startedAtEpoch) / 60) to
    actualMinutes, clears startedAtEpoch and sets the status, the other
    fields and the other tasks being kept; and starting a task and marking
    it done at the same instant leaves actualMinutes as it was, with
    startedAtEpoch 0.  Time runs forward over the span and the sums fit
    Go's 64-bit integers. *)
Theorem C1_leaving_started_settles clk i w data t :
  healthy w data ->
  day_tasks data (todayKey clk) !! i = Some t ->
  GoInt.in_range (Actual t) ->
  (forall status,
     status ∈ ["done"; "cancelled"; "pending"] ->
     StartedAt t <> 0 ->
     StartedAt t <= Unix clk ->
     GoInt.in_range (Unix clk - StartedAt t) ->
     GoInt.in_range (Actual t + (Unix clk - StartedAt t) / 60) ->
     exists w',
       updateStatus clk (Z.of_nat i) status w = (Ok tt, w') /\
       stored_tasks w' (todayKey clk) =
         <[i := mkTask (Title t) (Estimated t)
                  (Actual t + (Unix clk - StartedAt t) / 60) status 0]>
           (day_tasks data (todayKey clk)))
  /\
  (exists w1 w2,
     updateStatus clk (Z.of_nat i) "started" w = (Ok tt, w1) /\
     updateStatus clk (Z.of_nat i) "done" w1 = (Ok tt, w2) /\
     stored_tasks w2 (todayKey clk) =
       <[i := mkTask (Title t) (Estimated t) (Actual t + 0) "done" 0]>
         (day_tasks data (todayKey clk))).
Proof.
  intros Hw Hi Hact. split.
  - intros status Hs Hrun Hfwd Hspan Hsum.
    eexists. split; [by eapply updateStatus_run|].
    rewrite stored_after_save.
    apply list_eq. intros j. destruct (decide (i = j)) as [<-|Hne].
    + rewrite list_lookup_alter_eq, Hi,
        list_lookup_insert_eq by (by eapply lookup_lt_Some).
      simpl. f_equal. rewrite applyStatus_leave by done.
      destruct (Z.eqb_spec (StartedAt t) 0); [done|].
      by rewrite elapsed_floor, GoIntFacts.add_exact.
    + by rewrite list_lookup_alter_ne, list_lookup_insert_ne.
  - eexists _, _. split; [by eapply updateStatus_run|].
    split.
    + eapply updateStatus_run; [apply healthy_after_save|].
      by rewrite day_tasks_insert, list_lookup_alter_eq, Hi.
    + rewrite stored_after_save, day_tasks_insert.
      apply list_eq. intros j. destruct (decide (i = j)) as [<-|Hne].
      * rewrite !list_lookup_alter_eq, Hi,
          list_lookup_insert_eq by (by eapply lookup_lt_Some).
        simpl. f_equal. rewrite applyStatus_started.
        rewrite applyStatus_leave by (rewrite !elem_of_cons; auto). simpl.
        rewrite Z.add_0_r.
        destruct (Z.eqb_spec (Unix clk) 0) as [->|Hnz]; [done|].
        f_equal. unfold GoInt.sub. rewrite Z.sub_diag.
        by apply GoIntFacts.add_0_r.
      * by rewrite !list_lookup_alter_ne, list_lookup_insert_ne.
Qed.

Lemma C1_leaving_started_settles_witness :
  exists w',
    updateStatus sample_clock 1 "done" sample_world = (Ok tt, w') /\
    stored_tasks w' sample_day =
      [mkTask "write report" 30 0 "pending" 0;
       mkTask "review patch" 60 15 "done" 0;
       mkTask "plan sprint" 45 0 "pending" 0].
Proof.
  destruct (C1_leaving_started_settles sample_clock 1 sample_world
              sample_data (mkTask "review patch" 60 5 "started" 1000))
    as [Hsettle _].
  - split; reflexivity.
  - reflexivity.
  - fits_int.
  - apply (Hsettle "done").
    + rewrite !elem_of_cons. auto.
    + simpl. lia.
    + simpl. lia.
    + fits_int.
    + fits_int.
Defined.

(** When the clock reads earlier than [StartedAt], Go's [/] truncates
    toward zero: half a minute backwards settles 0 minutes, not -1. *)
Lemma settle_backwards_clock_truncates :
  applyStatus 970 "done" (mkTask "review patch" 60 5 "started" 1000) =
    mkTask "review patch" 60 5 "done" 0
  /\ (970 - 1000) / 60 = -1.
Proof. split; reflexivity. Qed.

(** C7: marking a task done twice in a row settles at most once: the
    first call leaves startedAtEpoch at 0, and the second call, whatever
    the clock then reads, stores the same tasks again, so actualMinutes is
    unchanged. *)
Theorem C7_done_twice_settles_once clk1 clk2 i w data t :
  healthy w data ->
  todayKey clk2 = todayKey clk1 ->
  day_tasks data (todayKey clk1) !! i = Some t ->
  exists w1 w2 t1,
    updateStatus clk1 (Z.of_nat i) "done" w = (Ok tt, w1) /\
    updateStatus clk2 (Z.of_nat i) "done" w1 = (Ok tt, w2) /\
    stored_tasks w1 (todayKey clk1) !! i = Some t1 /\
    StartedAt t1 = 0 /\
    stored_tasks w2 (todayKey clk1) !! i = Some t1 /\
    stored_tasks w2 (todayKey clk1) = stored_tasks w1 (todayKey clk1).
Proof.
  intros Hw Hday Hi.
  set (t1 := applyStatus (Unix clk1) "done" t).
  assert (StartedAt t1 = 0) as Hclear.
  { unfold t1. rewrite applyStatus_leave by (rewrite !elem_of_cons; auto).
    by destruct (Z.eqb_spec (StartedAt t) 0). }
  assert (applyStatus (Unix clk2) "done" t1 = t1) as Hagain.
  { clear Hclear. unfold t1.
    rewrite !applyStatus_leave by (rewrite !elem_of_cons; auto).
    destruct (Z.eqb_spec (StartedAt t) 0) as [Hz|Hz]; simpl; [|done].
    by rewrite Hz. }
  eexists _, _, t1. split; [by eapply updateStatus_run|].
  assert (alter (applyStatus (Unix clk1) "done") i
            (day_tasks data (todayKey clk1)) !! i = Some t1) as Hi1.
  { by rewrite list_lookup_alter_eq, Hi. }
  split.
  { eapply updateStatus_run; [apply healthy_after_save|].
    rewrite Hday, day_tasks_insert. exact Hi1. }
  rewrite Hday, !stored_after_save, !day_tasks_insert.
  assert (alter (applyStatus (Unix clk2) "done") i
            (alter (applyStatus (Unix clk1) "done") i
               (day_tasks data (todayKey clk1))) =
          alter (applyStatus (Unix clk1) "done") i
            (day_tasks data (todayKey clk1))) as ->; [|done].
  apply list_eq. intros j. destruct (decide (i = j)) as [<-|Hne].
  - rewrite list_lookup_alter_eq, Hi1. simpl. by rewrite Hagain.
  - by rewrite list_lookup_alter_ne.
Qed.

Lemma C7_done_twice_settles_once_witness :
  exists w1 w2 t1,
    updateStatus sample_clock 1 "done" sample_world = (Ok tt, w1) /\
    updateStatus (mkClock sample_day "2025-03-15" 9999 (time.Date 15 0)) 1
      "done" w1 = (Ok tt, w2) /\
    stored_tasks w1 sample_day !! 1%nat = Some t1 /\
    StartedAt t1 = 0 /\
    stored_tasks w2 sample_day !! 1%nat = Some t1 /\
    stored_tasks w2 sample_day = stored_tasks w1 sample_day.
Proof.
  apply (C7_done_twice_settles_once sample_clock
           (mkClock sample_day "2025-03-15" 9999 (time.Date 15 0)) 1
           sample_world sample_data
           (mkTask "review patch" 60 5 "started" 1000)).
  - split; reflexivity.
  - reflexivity.
  - reflexivity.
Defined.

(** C10: starting a task that is already started only overwrites
    startedAtEpoch with the current time: title, estimate, actualMinutes
    and status are kept and no other task changes.  The earlier span is
    lost: a later transition to done, at the clock reading [later],
    settles the minutes counted from the restart alone. *)
Theorem C10_restart_overwrites_timer clk i w data t :
  healthy w data ->
  day_tasks data (todayKey clk) !! i = Some t ->
  Status t = "started" ->
  exists w',
    updateStatus clk (Z.of_nat i) "started" w = (Ok tt, w') /\
    stored_tasks w' (todayKey clk) =
      <[i := mkTask (Title t) (Estimated t) (Actual t) (Status t) (Unix clk)]>
        (day_tasks data (todayKey clk)) /\
    forall later,
      todayKey later = todayKey clk -> Unix clk <> 0 ->
      exists w'',
        updateStatus later (Z.of_nat i) "done" w' = (Ok tt, w'') /\
        stored_tasks w'' (todayKey clk) !! i =
          Some (mkTask (Title t) (Estimated t)
                  (GoInt.add (Actual t)
                     (GoInt.quo (GoInt.sub (Unix later) (Unix clk)) 60))
                  "done" 0).
Proof.
  intros Hw Hi Hst.
  assert (alter (applyStatus (Unix clk) "started") i
            (day_tasks data (todayKey clk)) =
          <[i := mkTask (Title t) (Estimated t) (Actual t) (Status t)
                   (Unix clk)]> (day_tasks data (todayKey clk))) as Hrestart.
  { apply list_eq. intros j. destruct (decide (i = j)) as [<-|Hne].
    - rewrite list_lookup_alter_eq, Hi,
        list_lookup_insert_eq by (by eapply lookup_lt_Some).
      simpl. by rewrite applyStatus_started, Hst.
    - by rewrite list_lookup_alter_ne, list_lookup_insert_ne. }
  eexists. split; [by eapply updateStatus_run|].
  rewrite stored_after_save. split; [done|].
  intros later Hday Hnz. eexists. split.
  - eapply updateStatus_run; [apply healthy_after_save|].
    rewrite Hday, day_tasks_insert, Hrestart.
    apply list_lookup_insert_eq. by eapply lookup_lt_Some.
  - rewrite Hday, stored_after_save, day_tasks_insert, list_lookup_alter_eq.
    rewrite Hrestart, list_lookup_insert_eq by (by eapply lookup_lt_Some).
    simpl. rewrite applyStatus_leave by (rewrite !elem_of_cons; auto).
    simpl. by destruct (Z.eqb_spec (Unix clk) 0).
Qed.

Lemma C10_restart_overwrites_timer_witness :
  exists w',
    updateStatus sample_clock 1 "started" sample_world = (Ok tt, w') /\
    stored_tasks w' sample_day =
      [mkTask "write report" 30 0 "pending" 0;
       mkTask "review patch" 60 5 "started" 1600;
       mkTask "plan sprint" 45 0 "pending" 0].
Proof.
  destruct (C10_restart_overwrites_timer sample_clock 1 sample_world
              sample_data (mkTask "review patch" 60 5 "started" 1000))
    as (w' & Hrun & Hstored & _).
  - split; reflexivity.
  - reflexivity.
  - reflexivity.
  - exists w'. split; [exact Hrun | exact Hstored].
Defined.

(** ** [startNextPendingTask] *)

Lemma any_status_true status (tasks : list Task) :
  any_status status tasks = true <->
  exists t, t ∈ tasks /\ Status t = status.
Proof.
  unfold any_status. rewrite existsb_exists. split.
  - intros (t & Hin & Heq). exists t. split.
    + by apply list_elem_of_In.
    + by apply String.eqb_eq.
  - intros (t & Hin & Heq). exists t. split.
    + by apply list_elem_of_In.
    + by apply String.eqb_eq.
Qed.

(** C6: when some task of the day is already started, starting the next
    pending task only prints the already-running notice: the command
    returns no error and the stored file, hence every task and the order
    of every day, is the one it found, whatever else the day holds and
    whatever the user would have answered. *)
Theorem C6_start_next_refuses_when_running clk choices w data t :
  loadTasks w = (Ok data, w) ->
  t ∈ day_tasks data (todayKey clk) ->
  Status t = "started" ->
  startNextPendingTask clk choices w =
    (Ok tt,
     mkWorld (tasks_yaml w) (write_error w)
       (stdout w ++
        [Text "A task is already started. Please finish it before starting another one."])%list).
Proof.
  intros Hl Hin Hst. unfold startNextPendingTask, bind. rewrite Hl.
  assert (any_status "started" (day_tasks data (todayKey clk)) = true) as ->.
  { apply any_status_true. eauto. }
  reflexivity.
Qed.

Lemma C6_start_next_refuses_when_running_witness :
  startNextPendingTask sample_clock [Ok 0%nat] sample_world =
    (Ok tt,
     mkWorld (Holds sample_data) None
       [Text "A task is already started. Please finish it before starting another one."]).
Proof.
  apply (C6_start_next_refuses_when_running sample_clock [Ok 0%nat]
           sample_world sample_data
           (mkTask "review patch" 60 5 "started" 1000)).
  - reflexivity.
  - apply list_elem_of_lookup. exists 1%nat. reflexivity.
  - reflexivity.
Defined.

(** ** [deleteTaskInteractive] *)

Lemma deleteTaskInteractive_run clk index w data t :
  healthy w data ->
  day_tasks data (todayKey clk) !! index = Some t ->
  deleteTaskInteractive clk (Ok index) w =
    (Ok tt,
     mkWorld
       (Holds (<[todayKey clk :=
                 (take index (day_tasks data (todayKey clk)) ++
                  drop (S index) (day_tasks data (todayKey clk)))%list]> data))
       None (stdout w)).
Proof.
  intros [Hl Hw] Hi. unfold deleteTaskInteractive, bind. rewrite Hl.
  destruct (day_tasks data (todayKey clk)) as [|t0 rest] eqn:Htasks;
    [done|].
  cbn [length Nat.eqb]. unfold Select_Run. rewrite Hi.
  unfold saveTasks. by rewrite Hw.
Qed.

(** C9: deleting the task picked at an index in range removes that task
    alone: the bucket is one shorter, the tasks before the index stay at
    their index, the tasks after it move down by one, each of them the
    record it was, and the other days are untouched.  Nothing is settled:
    no kept task changes and the removed task, running or not, is written
    nowhere. *)
Theorem C9_delete_shifts_and_keeps_order clk index w data t :
  healthy w data ->
  day_tasks data (todayKey clk) !! index = Some t ->
  exists w',
    deleteTaskInteractive clk (Ok index) w = (Ok tt, w') /\
    S (length (stored_tasks w' (todayKey clk))) =
      length (day_tasks data (todayKey clk)) /\
    (forall j, (j < index)%nat ->
       stored_tasks w' (todayKey clk) !! j =
       day_tasks data (todayKey clk) !! j) /\
    (forall j, (index <= j)%nat ->
       stored_tasks w' (todayKey clk) !! j =
       day_tasks data (todayKey clk) !! S j) /\
    (forall day, day <> todayKey clk ->
       stored_tasks w' day = day_tasks data day).
Proof.
  intros Hw Hi. eexists. split; [by eapply deleteTaskInteractive_run|].
  pose proof (lookup_lt_Some _ _ _ Hi) as Hlt.
  rewrite stored_after_save. repeat split.
  - rewrite length_app, length_take, length_drop. lia.
  - intros j Hj. rewrite lookup_app_l by (rewrite length_take; lia).
    by apply lookup_take_lt.
  - intros j Hj. rewrite lookup_app_r by (rewrite length_take; lia).
    rewrite length_take, lookup_drop. f_equal. lia.
  - intros day Hne. unfold stored_tasks. simpl.
    by apply day_tasks_insert_ne.
Qed.

Lemma C9_delete_shifts_and_keeps_order_witness :
  exists w',
    deleteTaskInteractive sample_clock (Ok 1%nat) sample_world = (Ok tt, w') /\
    stored_tasks w' sample_day !! 0%nat =
      Some (mkTask "write report" 30 0 "pending" 0) /\
    stored_tasks w' sample_day !! 1%nat =
      Some (mkTask "plan sprint" 45 0 "pending" 0) /\
    length (stored_tasks w' sample_day) = 2%nat.
Proof.
  destruct (C9_delete_shifts_and_keeps_order sample_clock 1 sample_world
              sample_data (mkTask "review patch" 60 5 "started" 1000))
    as (w' & Hrun & Hlen & Hbefore & Hafter & _).
  - split; reflexivity.
  - reflexivity.
  - exists w'. split; [exact Hrun|]. split; [|split].
    + exact (Hbefore 0%nat Nat.lt_0_1).
    + exact (Hafter 1%nat (Nat.le_refl 1)).
    + apply Nat.succ_inj. exact Hlen.
Defined.

(** ** [addTaskInteractive] *)

Lemma summed_estimates_nonneg (tasks : list Task) :
  Forall (fun t => 0 <= Estimated t) tasks -> 0 <= summed_estimates tasks.
Proof. induction 1; simpl; lia. Qed.

Lemma sum_estimated_from acc (tasks : list Task) :
  0 <= acc ->
  Forall (fun t => 0 <= Estimated t) tasks ->
  acc + summed_estimates tasks <= GoInt.max_int ->
  fold_left (fun total t => GoInt.add total (Estimated t)) tasks acc =
    acc + summed_estimates tasks.
Proof.
  intros Hacc Hpos. revert acc Hacc.
  induction Hpos as [|t tasks Ht Hpos IH]; intros acc Hacc Hmax; simpl in *.
  - lia.
  - pose proof (summed_estimates_nonneg tasks Hpos) as Hrest.
    rewrite GoIntFacts.add_exact
      by (unfold GoInt.in_range, GoInt.min_int, GoInt.max_int in *; lia).
    rewrite IH by lia. lia.
Qed.

Lemma sum_estimated_exact (tasks : list Task) :
  Forall (fun t => 0 <= Estimated t) tasks ->
  summed_estimates tasks <= GoInt.max_int ->
  sum_estimated tasks = summed_estimates tasks.
Proof.
  intros Hpos Hmax. unfold sum_estimated.
  by rewrite sum_estimated_from by (done || lia).
Qed.

Lemma Prompt_Run_accepts validate attempts line :
  Prompt_Run validate attempts = Ok line -> validate line = true.
Proof.
  induction attempts as [|[s|e] rest IH]; simpl; [done| |done].
  destruct (validate s) eqn:Hv; [|done]. by intros [= <-].
Qed.

Lemma estimate_valid_spec input :
  estimate_valid input = true <->
  snd (strconv.Atoi input) = true /\ 0 < fst (strconv.Atoi input).
Proof.
  unfold estimate_valid. destruct (strconv.Atoi input) as [val ok]. simpl.
  destruct ok; simpl; [|split; [done|by intros [? _]]].
  destruct (Z.leb_spec val 0); simpl; split; (done || lia || idtac).
Qed.

(** An accepted title and an accepted estimate: the task is appended to
    the addressed day and the file is written. *)
Lemma addTaskInteractive_run clk (tommorow : bool) title estAnswers estInput
    w data :
  healthy w data ->
  title <> "q" ->
  Prompt_Run estimate_valid estAnswers = Ok estInput ->
  let today := if tommorow then tomorrowKey clk else todayKey clk in
  let estimated := fst (strconv.Atoi estInput) in
  addTaskInteractive clk tommorow (Ok title) estAnswers w =
    (Ok tt,
     mkWorld
       (Holds (<[today := (day_tasks data today ++
                           [mkTask title estimated 0 "pending" 0])%list]> data))
       None
       (stdout w ++
        if GoInt.add (sum_estimated (day_tasks data today)) estimated
             >? maxDailyMinutes
        then capacity_warning else [])%list).
Proof.
  intros [Hl Hw] Hq Hest today estimated.
  unfold addTaskInteractive, bind. rewrite Hl.
  unfold promptWithCursor.
  assert (String.eqb title "q" = false) as -> by by apply String.eqb_neq.
  simpl. rewrite Hest. fold today estimated.
  destruct (GoInt.add (sum_estimated (day_tasks data today)) estimated
              >? maxDailyMinutes); simpl; unfold saveTasks; simpl;
    rewrite Hw; [done|]. by rewrite app_nil_r.
Qed.

(** C8: an estimate that takes the day's summed estimates over 480 minutes
    does not stop the creation: the command succeeds, the new task is
    appended at the end of the day's sequence, and the only other effect
    is the warning line.  The estimates are non-negative and their sum
    fits a 64-bit integer. *)
Theorem C8_over_capacity_still_appends clk (tommorow : bool) title estAnswers
    estInput w data :
  healthy w data ->
  title <> "q" ->
  Prompt_Run estimate_valid estAnswers = Ok estInput ->
  let today := if tommorow then tomorrowKey clk else todayKey clk in
  let estimated := fst (strconv.Atoi estInput) in
  Forall (fun t => 0 <= Estimated t) (day_tasks data today) ->
  summed_estimates (day_tasks data today) + estimated <= GoInt.max_int ->
  summed_estimates (day_tasks data today) + estimated > maxDailyMinutes ->
  exists w',
    addTaskInteractive clk tommorow (Ok title) estAnswers w = (Ok tt, w') /\
    stored_tasks w' today =
      (day_tasks data today ++ [mkTask title estimated 0 "pending" 0])%list /\
    stdout w' = (stdout w ++ capacity_warning)%list.
Proof.
  intros Hw Hq Hest today estimated Hpos Hfit Hover.
  eexists. split; [by apply addTaskInteractive_run|].
  split; [apply stored_after_save|]. simpl. fold today estimated.
  apply Prompt_Run_accepts, estimate_valid_spec in Hest as [_ Hest].
  fold estimated in Hest.
  pose proof (summed_estimates_nonneg _ Hpos) as Hsum.
  rewrite sum_estimated_exact by (done || lia).
  rewrite GoIntFacts.add_exact
    by (unfold GoInt.in_range, GoInt.min_int, GoInt.max_int in *; lia).
  by destruct (Z.gtb_spec (summed_estimates (day_tasks data today) + estimated)
              maxDailyMinutes); [|lia].
Qed.

Lemma C8_over_capacity_still_appends_witness :
  exists w',
    addTaskInteractive sample_clock false (Ok "retrospective")
      [Ok "0"; Ok "400"] sample_world = (Ok tt, w') /\
    stored_tasks w' sample_day =
      (sample_tasks ++ [mkTask "retrospective" 400 0 "pending" 0])%list /\
    stdout w' = capacity_warning.
Proof.
  apply (C8_over_capacity_still_appends sample_clock false "retrospective"
           [Ok "0"; Ok "400"] "400" sample_world sample_data).
  - split; reflexivity.
  - discriminate.
  - reflexivity.
  - repeat constructor; discriminate.
  - vm_compute. discriminate.
  - reflexivity.
Defined.

Lemma Prompt_Run_all_refused estAnswers :
  Forall refused_estimate estAnswers ->
  Prompt_Run estimate_valid estAnswers = Err "^D".
Proof.
  induction 1 as [|a rest (line & -> & Hbad) _ IH]; simpl; [done|].
  destruct (estimate_valid line) eqn:Hv; [|done].
  apply estimate_valid_spec in Hv as [Hok Hpos].
  destruct Hbad; [congruence|lia].
Qed.

Lemma prompt_failed_keeps e w : snd (prompt_failed e w) = w.
Proof.
  unfold prompt_failed.
  by destruct (String.eqb e "interrupt" || String.eqb e "q").
Qed.

Lemma loadTasks_keeps w : snd (loadTasks w) = w.
Proof. unfold loadTasks. by destruct (tasks_yaml w). Qed.

(** Counterexample to C5 as worded: the empty title is not refused, the
    task is created with it. *)
Lemma C5_empty_title_is_accepted :
  exists w',
    addTaskInteractive sample_clock false (Ok "") [Ok "30"] sample_world =
      (Ok tt, w') /\
    stored_tasks w' sample_day =
      (sample_tasks ++ [mkTask "" 30 0 "pending" 0])%list.
Proof. eexists. split; vm_compute; reflexivity. Qed.

(** C5, amended: creation validates the estimate and not the title.  As
    long as every estimate line is refused (not a decimal integer, or not
    positive) no task is created and the file is left as it was.  With any
    title other than the quit key "q", the empty title included, and an
    accepted estimate, which is then positive, the command succeeds and
    appends a task with that title and estimate, status pending,
    actualMinutes 0 and startedAtEpoch 0. *)
Theorem C5_create_validates_estimate_only clk (tommorow : bool) w data :
  healthy w data ->
  let today := if tommorow then tomorrowKey clk else todayKey clk in
  (forall titleAnswer estAnswers,
     Forall refused_estimate estAnswers ->
     snd (addTaskInteractive clk tommorow titleAnswer estAnswers w) = w)
  /\
  (forall title estAnswers estInput,
     title <> "q" ->
     Prompt_Run estimate_valid estAnswers = Ok estInput ->
     0 < fst (strconv.Atoi estInput) /\
     exists w',
       addTaskInteractive clk tommorow (Ok title) estAnswers w = (Ok tt, w') /\
       stored_tasks w' today =
         (day_tasks data today ++
          [mkTask title (fst (strconv.Atoi estInput)) 0 "pending" 0])%list).
Proof.
  intros Hw today. split.
  - intros titleAnswer estAnswers Hbad.
    unfold addTaskInteractive, bind. destruct Hw as [-> _].
    destruct (promptWithCursor _ "" titleAnswer); [|apply prompt_failed_keeps].
    rewrite Prompt_Run_all_refused by done. apply prompt_failed_keeps.
  - intros title estAnswers estInput Hq Hest. split.
    + by apply Prompt_Run_accepts, estimate_valid_spec in Hest as [_ ?].
    + eexists. split; [by apply addTaskInteractive_run|].
      apply stored_after_save.
Qed.

Lemma C5_create_validates_estimate_only_witness :
  snd (addTaskInteractive sample_clock false (Ok "standup")
         [Ok "0"; Ok "-15"; Ok "soon"] sample_world) = sample_world
  /\
  exists w',
    addTaskInteractive sample_clock false (Ok "standup") [Ok "0"; Ok "15"]
      sample_world = (Ok tt, w') /\
    stored_tasks w' sample_day =
      (sample_tasks ++ [mkTask "standup" 15 0 "pending" 0])%list.
Proof.
  destruct (C5_create_validates_estimate_only sample_clock false sample_world
              sample_data) as [Hrefused Haccepted].
  - split; reflexivity.
  - split.
    + apply Hrefused. repeat constructor.
      * exists "0". split; [reflexivity|]. right. discriminate.
      * exists "-15". split; [reflexivity|]. right. discriminate.
      * exists "soon". split; [reflexivity|]. left. reflexivity.
    + apply (Haccepted "standup" [Ok "0"; Ok "15"] "15");
        [discriminate | reflexivity].
Defined.

(** ** [remainingMinutesToday] *)

Lemma whole_minutes_floor d :
  0 <= d ->
  time.whole_minutes d = d / time.Minute /\ 0 <= d / time.Minute <= d.
Proof.
  intros Hd. unfold time.whole_minutes.
  assert (0 < time.Minute) as Hm by reflexivity.
  rewrite Z.quot_div_nonneg by lia. split; [done|]. split.
  - by apply Z.div_pos.
  - apply Z.div_le_upper_bound; [done|].
    unfold time.Minute, time.Second in *. nia.
Qed.

Lemma whole_minutes_le d n :
  0 <= d <= n * time.Minute -> d / time.Minute <= n.
Proof.
  intros Hd. apply Z.div_le_upper_bound; [reflexivity|]. lia.
Qed.

Lemma add_small a b :
  - 2 ^ 62 <= a <= 2 ^ 62 -> - 2 ^ 62 <= b < 2 ^ 62 -> GoInt.add a b = a + b.
Proof.
  intros Ha Hb. apply GoIntFacts.add_exact.
  unfold GoInt.in_range, GoInt.min_int, GoInt.max_int. lia.
Qed.

Lemma remaining_morning now :
  time.Date 8 30 <= now < time.Date 12 30 ->
  remainingMinutesToday now = (time.Date 12 30 - now) / time.Minute + 240.
Proof.
  intros Hnow. unfold remainingMinutesToday, time.Before, time.After.
  destruct (Z.ltb_spec now (time.Date 8 30)); [lia|].
  destruct (Z.gtb_spec now (time.Date 17 30));
    [unfold time.Date, time.Hour, time.Minute, time.Second in *; lia|].
  destruct (Z.ltb_spec now (time.Date 12 30)); [|lia].
  unfold time.Sub.
  destruct (whole_minutes_floor (time.Date 12 30 - now)) as [-> Hq]; [lia|].
  pose proof (whole_minutes_le (time.Date 12 30 - now) 240) as Hle.
  assert ((time.Date 12 30 - now) / time.Minute <= 240) as Hq'.
  { apply Hle. unfold time.Date, time.Hour, time.Minute, time.Second in *.
    lia. }
  rewrite (add_small 0) by lia. rewrite add_small by lia. lia.
Qed.

Lemma remaining_afternoon now :
  time.Date 13 30 <= now <= time.Date 17 30 ->
  remainingMinutesToday now = (time.Date 17 30 - now) / time.Minute.
Proof.
  intros Hnow. unfold remainingMinutesToday, time.Before, time.After.
  destruct (Z.ltb_spec now (time.Date 8 30));
    [unfold time.Date, time.Hour, time.Minute, time.Second in *; lia|].
  destruct (Z.gtb_spec now (time.Date 17 30)); [lia|].
  destruct (Z.ltb_spec now (time.Date 12 30));
    [unfold time.Date, time.Hour, time.Minute, time.Second in *; lia|].
  destruct (Z.ltb_spec now (time.Date 13 30)); [lia|].
  destruct (Z.ltb_spec now (time.Date 17 30)) as [Hlt|Hge].
  - unfold time.Sub.
    destruct (whole_minutes_floor (time.Date 17 30 - now)) as [-> Hq]; [lia|].
    assert ((time.Date 17 30 - now) / time.Minute <= 240) as Hq'.
    { apply whole_minutes_le.
      unfold time.Date, time.Hour, time.Minute, time.Second in *. lia. }
    rewrite (add_small 0) by lia. lia.
  - assert (now = time.Date 17 30) as -> by lia.
    by rewrite Z.sub_diag.
Qed.

Lemma remaining_early now :
  now < time.Date 8 30 -> remainingMinutesToday now = 480.
Proof.
  intros Hnow. unfold remainingMinutesToday, time.Before.
  by destruct (Z.ltb_spec now (time.Date 8 30)); [|lia].
Qed.

Lemma remaining_late now :
  time.Date 17 30 < now -> remainingMinutesToday now = 0.
Proof.
  intros Hnow. unfold remainingMinutesToday, time.Before, time.After.
  destruct (Z.ltb_spec now (time.Date 8 30));
    [unfold time.Date, time.Hour, time.Minute, time.Second in *; lia|].
  by destruct (Z.gtb_spec now (time.Date 17 30)); [|lia].
Qed.

Lemma remaining_lunch now :
  time.Date 12 30 <= now < time.Date 13 30 -> remainingMinutesToday now = 240.
Proof.
  intros Hnow. unfold remainingMinutesToday, time.Before, time.After.
  destruct (Z.ltb_spec now (time.Date 8 30));
    [unfold time.Date, time.Hour, time.Minute, time.Second in *; lia|].
  destruct (Z.gtb_spec now (time.Date 17 30));
    [unfold time.Date, time.Hour, time.Minute, time.Second in *; lia|].
  destruct (Z.ltb_spec now (time.Date 12 30)); [lia|].
  by destruct (Z.ltb_spec now (time.Date 13 30)); [|lia].
Qed.

(** C3: the minutes of work left today, by period of the day: 480 before
    08:30; 0 after 17:30; the whole minutes until 12:30 plus 240 from
    08:30 up to 12:30; 240 from 12:30 up to 13:30; the whole minutes
    until 17:30 from 13:30 to 17:30 included.  So 480 at 08:00, 270 at
    12:00, 240 at 13:00, 150 at 15:00 and 0 at 18:00. *)
Theorem C3_remaining_minutes_by_period :
  (forall now, now < time.Date 8 30 -> remainingMinutesToday now = 480) /\
  (forall now, time.Date 17 30 < now -> remainingMinutesToday now = 0) /\
  (forall now, time.Date 8 30 <= now < time.Date 12 30 ->
     remainingMinutesToday now =
       (time.Date 12 30 - now) / time.Minute + 240) /\
  (forall now, time.Date 12 30 <= now < time.Date 13 30 ->
     remainingMinutesToday now = 240) /\
  (forall now, time.Date 13 30 <= now <= time.Date 17 30 ->
     remainingMinutesToday now = (time.Date 17 30 - now) / time.Minute) /\
  remainingMinutesToday (time.Date 8 0) = 480 /\
  remainingMinutesToday (time.Date 12 0) = 270 /\
  remainingMinutesToday (time.Date 13 0) = 240 /\
  remainingMinutesToday (time.Date 15 0) = 150 /\
  remainingMinutesToday (time.Date 18 0) = 0.
Proof.
  split; [exact remaining_early|]. split; [exact remaining_late|].
  split; [exact remaining_morning|]. split; [exact remaining_lunch|].
  split; [exact remaining_afternoon|]. repeat split; reflexivity.
Qed.

(** The minutes left never leave the range of the working day. *)
Lemma remainingMinutesToday_bounds now :
  0 <= remainingMinutesToday now <= 480.
Proof.
  destruct (Z.lt_ge_cases now (time.Date 8 30));
    [rewrite remaining_early; lia|].
  destruct (Z.lt_ge_cases (time.Date 17 30) now);
    [rewrite remaining_late; lia|].
  destruct (Z.lt_ge_cases now (time.Date 12 30)).
  { rewrite remaining_morning by lia.
    pose proof (whole_minutes_floor (time.Date 12 30 - now)).
    pose proof (whole_minutes_le (time.Date 12 30 - now) 240).
    unfold time.Date, time.Hour, time.Minute, time.Second in *. lia. }
  destruct (Z.lt_ge_cases now (time.Date 13 30));
    [rewrite remaining_lunch; lia|].
  rewrite remaining_afternoon by lia.
  pose proof (whole_minutes_floor (time.Date 17 30 - now)).
  pose proof (whole_minutes_le (time.Date 17 30 - now) 240).
  unfold time.Date, time.Hour, time.Minute, time.Second in *. lia.
Qed.

(** ** The workload metrics of [listTasksInteractive] *)

Lemma remaining_work_spec_nonneg tasks : 0 <= remaining_work_spec tasks.
Proof.
  unfold remaining_work_spec.
  induction (filter (fun t => Status t <> "done" /\ Status t <> "cancelled")
               tasks) as [|t l IH]; [simpl; lia|].
  rewrite fmap_cons. cbn [foldr]. lia.
Qed.

Lemma remaining_work_spec_cons t tasks :
  remaining_work_spec (t :: tasks) =
    (if String.eqb (Status t) "done" then 0
     else if String.eqb (Status t) "cancelled" then 0
     else Z.max 0 (Estimated t - Actual t))
    + remaining_work_spec tasks.
Proof.
  unfold remaining_work_spec.
  destruct (String.eqb_spec (Status t) "done") as [Hd|Hd].
  { rewrite filter_cons_False by (intros [? _]; done). done. }
  destruct (String.eqb_spec (Status t) "cancelled") as [Hc|Hc].
  { rewrite filter_cons_False by (intros [_ ?]; done). done. }
  by rewrite filter_cons_True by done.
Qed.

Lemma tally_remaining tasks : forall acc,
  0 <= remainingWork acc ->
  Forall (fun t => GoInt.in_range (Estimated t - Actual t)) tasks ->
  remainingWork acc + remaining_work_spec tasks <= GoInt.max_int ->
  remainingWork (fold_left tally tasks acc) =
    remainingWork acc + remaining_work_spec tasks.
Proof.
  induction tasks as [|t tasks IH]; intros acc Hacc Hfit Hmax.
  - unfold remaining_work_spec. simpl. lia.
  - apply Forall_cons in Hfit as [Ht Hfit].
    rewrite remaining_work_spec_cons in *. simpl fold_left.
    pose proof (remaining_work_spec_nonneg tasks) as Hrest.
    unfold tally at 2.
    destruct (String.eqb (Status t) "done"); simpl.
    { rewrite IH by (simpl; (done || lia)). simpl. lia. }
    destruct (String.eqb (Status t) "cancelled"); simpl.
    { rewrite IH by (simpl; (done || lia)). simpl. lia. }
    rewrite GoIntFacts.sub_exact in * by done.
    assert ((if Estimated t - Actual t <? 0 then 0
             else Estimated t - Actual t)
            = Z.max 0 (Estimated t - Actual t)) as Hclamp
      by (destruct (Z.ltb_spec (Estimated t - Actual t) 0); lia).
    rewrite Hclamp.
    assert (GoInt.add (remainingWork acc) (Z.max 0 (Estimated t - Actual t))
            = remainingWork acc + Z.max 0 (Estimated t - Actual t)) as Hadd.
    { apply GoIntFacts.add_exact.
      unfold GoInt.in_range, GoInt.min_int, GoInt.max_int in *. lia. }
    rewrite IH; simpl; rewrite ?Hadd; (done || lia).
Qed.

(** C4: the remaining work the report computes is the sum, over the tasks
    that are neither done nor cancelled, of max(0, estimatedMinutes -
    actualMinutes); the workload ratio is the binary64 quotient of the
    remaining work by the remaining minutes when these are positive, and
    exactly 1.0 when they are 0 (so with 100 minutes of work and no time
    left).  Each difference and the sum fit Go's 64-bit [int]. *)
Theorem C4_remaining_work_and_ratio tasks now :
  Forall (fun t => GoInt.in_range (Estimated t - Actual t)) tasks ->
  remaining_work_spec tasks <= GoInt.max_int ->
  let work := remainingWork (dayTotals tasks) in
  let minutesLeft := remainingMinutesToday now in
  work = remaining_work_spec tasks /\
  (0 < minutesLeft ->
     workloadRatio work minutesLeft =
       PrimFloat.div (float64 work) (float64 minutesLeft)) /\
  (minutesLeft = 0 -> workloadRatio work minutesLeft = 1%float) /\
  workloadRatio 100 0 = 1%float.
Proof.
  intros Hfit Hmax work minutesLeft. split; [|split; [|split]].
  - unfold work, dayTotals. by rewrite tally_remaining.
  - intros Hpos. unfold workloadRatio.
    by destruct (Z.gtb_spec minutesLeft 0); [|lia].
  - intros ->. reflexivity.
  - reflexivity.
Qed.

Lemma C4_remaining_work_and_ratio_witness :
  remainingWork (dayTotals sample_tasks) = 30 + 55 + 45 /\
  workloadRatio (remainingWork (dayTotals sample_tasks))
    (remainingMinutesToday (time.Date 16 25)) = 2%float /\
  workloadRatio (remainingWork (dayTotals sample_tasks))
    (remainingMinutesToday (time.Date 18 0)) = 1%float.
Proof.
  destruct (C4_remaining_work_and_ratio sample_tasks (time.Date 16 25))
    as (Hwork & Hratio & _).
  - repeat constructor; discriminate.
  - vm_compute. discriminate.
  - split; [|split].
    + rewrite Hwork. reflexivity.
    + rewrite Hratio by reflexivity. reflexivity.
    + reflexivity.
Defined.

Lemma saveTasks_keeps_stdout data w :
  stdout (snd (saveTasks data w)) = stdout w.
Proof. unfold saveTasks. by destruct (write_error w). Qed.

Lemma editLoop_keeps_stdout today rounds : forall data tasks w,
  stdout (snd (editLoop today data tasks rounds w)) = stdout w.
Proof.
  induction rounds as [|a rest IH]; intros data tasks w; simpl; [done|].
  destruct (Select_Run tasks (edit_pick a)) as [[index task]|e];
    [|by rewrite prompt_failed_keeps].
  destruct (promptWithCursor _ _ (edit_title a));
    [|by rewrite prompt_failed_keeps].
  destruct (promptWithCursor _ _ (edit_est a));
    [|by rewrite prompt_failed_keeps].
  destruct (promptWithCursor _ _ (edit_actual a));
    [|by rewrite prompt_failed_keeps].
  destruct (Select_Run status_items (edit_status a)) as [[n status]|e];
    [|by rewrite prompt_failed_keeps].
  unfold bind, ignore_error. rewrite IH. apply saveTasks_keeps_stdout.
Qed.

(** What [listTasksInteractive] prints for today's non-empty bucket: the
    four report lines, with the totals of the loop, the minutes left at
    the clock's time of day and the workload ratio of the two. *)
Lemma listTasksInteractive_report clk rounds w data :
  loadTasks w = (Ok data, w) ->
  day_tasks data (todayKey clk) <> [] ->
  let tot := dayTotals (day_tasks data (todayKey clk)) in
  let minutesLeft := remainingMinutesToday (Now clk) in
  stdout (snd (listTasksInteractive clk false rounds w)) =
    (stdout w ++
     [DailyPlan (totalEst tot);
      DailyWorked (totalActual tot);
      DailyAchieved (achievedWork tot) (totalEst tot);
      RemainingVsTime (workloadRatio (remainingWork tot) minutesLeft)
        minutesLeft (remainingWork tot)])%list.
Proof.
  intros Hl Hne tot minutesLeft. unfold listTasksInteractive, bind.
  rewrite Hl. simpl.
  destruct (day_tasks data (todayKey clk)) as [|t0 rest] eqn:Htasks;
    [done|].
  cbn [length Nat.eqb]. unfold printReport, bind, print. simpl.
  rewrite editLoop_keeps_stdout. simpl.
  by rewrite <- !app_assoc.
Qed.

(** ** The timer invariant *)

Lemma keeps_ret {A} (a : A) (Q : A -> Prop) : Q a -> keeps_invariant (ret a) Q.
Proof. intros Ha w Hw. split; [done|]. by intros ? [= <-]. Qed.

Lemma keeps_fail {A} e (Q : A -> Prop) : keeps_invariant (fail e) Q.
Proof. intros w Hw. by split. Qed.

Lemma keeps_bind {A B} (c : IO A) (k : A -> IO B) Q R :
  keeps_invariant c Q ->
  (forall a, Q a -> keeps_invariant (k a) R) ->
  keeps_invariant (bind c k) R.
Proof.
  intros Hc Hk w Hw. unfold bind.
  destruct (Hc w Hw) as [Hw' Hq]. destruct (c w) as [[a|e] w']; simpl in *.
  - by apply Hk; [apply Hq|].
  - by split.
Qed.

Lemma keeps_print o : keeps_invariant (print o) (fun _ => True).
Proof. intros w Hw. by split. Qed.

Lemma keeps_prompt_failed e : keeps_invariant (prompt_failed e) (fun _ => True).
Proof.
  unfold prompt_failed.
  destruct (String.eqb e "interrupt" || String.eqb e "q");
    [by apply keeps_ret | apply keeps_fail].
Qed.

Lemma keeps_loadTasks : keeps_invariant loadTasks data_invariant.
Proof.
  intros w Hw. rewrite loadTasks_keeps. split; [done|].
  unfold loadTasks. intros data.
  destruct (tasks_yaml w) as [|e|d] eqn:Hfile; simpl; intros [= <-].
  - intros day tasks Hl. by rewrite lookup_empty in Hl.
  - by apply Hw.
Qed.

Lemma keeps_saveTasks data :
  data_invariant data -> keeps_invariant (saveTasks data) (fun _ => True).
Proof.
  intros Hd w Hw. split; [|done]. unfold saveTasks.
  destruct (write_error w); [done|]. simpl. by intros ? [= <-].
Qed.

Lemma day_tasks_invariant data day :
  data_invariant data -> Forall timer_matches_status (day_tasks data day).
Proof.
  intros Hd. unfold day_tasks.
  destruct (data !! day) as [tasks|] eqn:Hl; simpl; [by eapply Hd|done].
Qed.

Lemma insert_invariant (data : TaskData) day tasks :
  data_invariant data ->
  Forall timer_matches_status tasks ->
  data_invariant (<[day := tasks]> data).
Proof.
  intros Hd Ht day' tasks' Hl.
  destruct (decide (day = day')) as [<-|Hne].
  - rewrite lookup_insert_eq in Hl. by injection Hl as <-.
  - rewrite lookup_insert_ne in Hl by done. by eapply Hd.
Qed.

(** With a clock that does not read the epoch itself, every recognised
    status leaves the task with a timer that matches it. *)
Lemma applyStatus_matches now status t :
  now <> 0 -> status ∈ status_items ->
  timer_matches_status (applyStatus now status t).
Proof.
  intros Hnow Hs. unfold status_items in Hs.
  repeat (apply elem_of_cons in Hs as [->|Hs]);
    [| | | | by apply elem_of_nil in Hs];
    unfold applyStatus, timer_matches_status; simpl;
    try (destruct (Z.eqb_spec (StartedAt t) 0); simpl);
    split; (done || lia || idtac).
Qed.

(** The commands, run against a clock that does not read the epoch. *)
Section Invariant.

Variable clk : Clock.
Hypothesis clock_set : Unix clk <> 0.

Lemma keeps_updateStatus index status :
  status ∈ status_items ->
  keeps_invariant (updateStatus clk index status) (fun _ => True).
Proof.
  intros Hs. unfold updateStatus.
  eapply keeps_bind; [apply keeps_loadTasks|]. intros data Hd. simpl.
  destruct ((index <? 0)
            || (index >=? Z.of_nat (length (day_tasks data (todayKey clk)))));
    [apply keeps_fail|].
  apply keeps_saveTasks, insert_invariant; [done|].
  apply Forall_alter; [by apply day_tasks_invariant|].
  intros t _ _. by apply applyStatus_matches.
Qed.

Lemma keeps_addTaskInteractive tommorow titleAnswer estAnswers :
  keeps_invariant (addTaskInteractive clk tommorow titleAnswer estAnswers)
    (fun _ => True).
Proof.
  unfold addTaskInteractive.
  eapply keeps_bind; [apply keeps_loadTasks|]. intros data Hd. simpl.
  destruct (promptWithCursor _ "" titleAnswer) as [title|e];
    [|apply keeps_prompt_failed].
  destruct (Prompt_Run estimate_valid estAnswers) as [estInput|e];
    [|apply keeps_prompt_failed].
  eapply keeps_bind with (Q := fun _ => True).
  { destruct (_ >? _); [apply keeps_print | by apply keeps_ret]. }
  intros _ _. apply keeps_saveTasks, insert_invariant; [done|].
  apply Forall_app. split; [by apply day_tasks_invariant|].
  repeat constructor; simpl; done.
Qed.

Lemma keeps_deleteTaskInteractive pick :
  keeps_invariant (deleteTaskInteractive clk pick) (fun _ => True).
Proof.
  unfold deleteTaskInteractive.
  eapply keeps_bind; [apply keeps_loadTasks|]. intros data Hd. simpl.
  destruct (Nat.eqb _ 0); [apply keeps_print|].
  destruct (Select_Run _ pick) as [[index t]|e]; [|apply keeps_prompt_failed].
  apply keeps_saveTasks, insert_invariant; [done|].
  apply Forall_app. split.
  - by apply Forall_take, day_tasks_invariant.
  - by apply Forall_drop, day_tasks_invariant.
Qed.

Lemma started_is_recognised : "started" ∈ status_items.
Proof. unfold status_items. rewrite !elem_of_cons. auto. Qed.

Lemma done_is_recognised : "done" ∈ status_items.
Proof. unfold status_items. rewrite !elem_of_cons. auto. Qed.

Lemma pending_is_recognised : "pending" ∈ status_items.
Proof. unfold status_items. rewrite !elem_of_cons. auto. Qed.

Lemma keeps_offerPending tasks : forall i choices,
  keeps_invariant (offerPending clk i tasks choices) (fun _ => True).
Proof.
  induction tasks as [|t rest IH]; intros i choices; simpl;
    [apply keeps_print|].
  destruct (String.eqb (Status t) "pending"); [|apply IH].
  destruct choices as [|pick choices']; [apply keeps_prompt_failed|].
  destruct (Select_Run ["Start"; "Skip"] pick) as [[n choice]|e];
    [|apply keeps_prompt_failed].
  destruct (String.eqb choice "Start"); [|apply IH].
  eapply keeps_bind; [apply keeps_print|]. intros _ _.
  apply keeps_updateStatus, started_is_recognised.
Qed.

Lemma keeps_startNextPendingTask choices :
  keeps_invariant (startNextPendingTask clk choices) (fun _ => True).
Proof.
  unfold startNextPendingTask.
  eapply keeps_bind; [apply keeps_loadTasks|]. intros data Hd. simpl.
  destruct (any_status "started" _); [apply keeps_print|].
  apply keeps_offerPending.
Qed.

Lemma keeps_finishCurrentTask :
  keeps_invariant (finishCurrentTask clk) (fun _ => True).
Proof.
  unfold finishCurrentTask.
  eapply keeps_bind; [apply keeps_loadTasks|]. intros data Hd.
  destruct (firstStarted 0 _) as [[i t]|]; [|apply keeps_print].
  apply keeps_updateStatus, done_is_recognised.
Qed.

Lemma keeps_stopCurrentTask :
  keeps_invariant (stopCurrentTask clk) (fun _ => True).
Proof.
  unfold stopCurrentTask.
  eapply keeps_bind; [apply keeps_loadTasks|]. intros data Hd.
  destruct (firstStarted 0 _) as [[i t]|]; [|apply keeps_print].
  eapply keeps_bind; [apply keeps_print|]. intros _ _.
  apply keeps_updateStatus, pending_is_recognised.
Qed.

Lemma keeps_selectTaskAndSetStatus pick statusPick :
  keeps_invariant (selectTaskAndSetStatus clk pick statusPick)
    (fun _ => True).
Proof.
  unfold selectTaskAndSetStatus.
  eapply keeps_bind; [apply keeps_loadTasks|]. intros data Hd. simpl.
  destruct (Nat.eqb _ 0); [apply keeps_print|].
  destruct (Select_Run _ pick) as [[index t]|e]; [|apply keeps_prompt_failed].
  destruct (Select_Run status_items statusPick) as [[n res]|e] eqn:Hsel;
    [|apply keeps_prompt_failed].
  apply keeps_updateStatus. unfold Select_Run in Hsel.
  destruct statusPick as [k|]; [|done].
  destruct (status_items !! k) eqn:Hk; [|done].
  injection Hsel as <- <-. apply list_elem_of_lookup. eauto.
Qed.

End Invariant.

Lemma applyStatus_unrecognised now status t :
  status ∉ status_items ->
  applyStatus now status t =
    mkTask (Title t) (Estimated t) (Actual t) status (StartedAt t).
Proof.
  intros Hs. unfold applyStatus, status_items in *.
  rewrite !not_elem_of_cons in Hs. destruct Hs as (Hp & Hst & Hd & Hc & _).
  apply String.eqb_neq in Hp, Hst, Hd, Hc. by rewrite Hp, Hst, Hd, Hc.
Qed.

(** A status outside the four recognised ones is stored as it is and the
    timer is left alone, so the invariant survives exactly when the
    addressed task was not running. *)
Lemma updateStatus_unrecognised clk i status w data t :
  healthy w data ->
  world_invariant w ->
  day_tasks data (todayKey clk) !! i = Some t ->
  status ∉ status_items ->
  world_invariant (snd (updateStatus clk (Z.of_nat i) status w)) <->
  StartedAt t = 0.
Proof.
  intros Hw Hinv Hi Hs.
  assert (data_invariant data) as Hd.
  { destruct Hw as [Hl _]. destruct (keeps_loadTasks w Hinv) as [_ Hq].
    apply Hq. by rewrite Hl. }
  erewrite updateStatus_run by done. simpl.
  assert (status <> "started") as Hne.
  { intros ->. apply Hs, started_is_recognised. }
  split.
  - intros Hafter.
    specialize (Hafter _ eq_refl (todayKey clk) _ (lookup_insert_eq _ _ _)).
    eapply Forall_lookup_1 in Hafter;
      [|by rewrite list_lookup_alter_eq, Hi].
    rewrite applyStatus_unrecognised in Hafter by done.
    destruct Hafter as [Hrun _]. simpl in Hrun.
    destruct (decide (StartedAt t = 0)); [done|]. by destruct Hne; apply Hrun.
  - intros Hz data' [= <-]. apply insert_invariant; [done|].
    apply Forall_alter; [by apply day_tasks_invariant|].
    intros t' Hi' _. rewrite Hi in Hi'. injection Hi' as <-.
    rewrite applyStatus_unrecognised by done.
    unfold timer_matches_status. simpl. split; [lia|done].
Qed.

Lemma sample_world_invariant : world_invariant sample_world.
Proof.
  intros data [= <-] day tasks Hl. unfold sample_data in Hl.
  apply lookup_singleton_Some in Hl as [_ <-].
  repeat constructor; simpl; (done || lia).
Qed.

Lemma archived_is_unrecognised : "archived" ∉ status_items.
Proof.
  unfold status_items. rewrite !not_elem_of_cons.
  repeat split; try discriminate. apply not_elem_of_nil.
Qed.

(** Counterexample to C2 as worded: an unrecognised status given to a
    running task replaces the status and leaves the timer running. *)
Lemma C2_unrecognised_status_breaks_invariant :
  world_invariant sample_world /\
  stored_tasks (snd (updateStatus sample_clock 1 "archived" sample_world))
    sample_day !! 1%nat =
    Some (mkTask "review patch" 60 5 "archived" 1000) /\
  ~ world_invariant (snd (updateStatus sample_clock 1 "archived" sample_world)).
Proof.
  split; [apply sample_world_invariant|]. split; [reflexivity|].
  intros Hafter.
  apply (updateStatus_unrecognised sample_clock 1 "archived" sample_world
           sample_data (mkTask "review patch" 60 5 "started" 1000))
    in Hafter; [discriminate | by split | apply sample_world_invariant
                | reflexivity | apply archived_is_unrecognised].
Qed.

(** The view/edit loop writes the picked status into the task and leaves
    [StartedAt] as it was: a pending task edited to started has no
    timer. *)
Lemma edit_sets_status_without_timer :
  let round :=
    mkEditAnswers (Ok 0%nat) (Ok "write report") (Ok "30") (Ok "0")
      (Ok 1%nat) in
  let w' := snd (listTasksInteractive sample_clock false [round] sample_world) in
  stored_tasks w' sample_day !! 0%nat =
    Some (mkTask "write report" 30 0 "started" 0)
  /\ ~ world_invariant w'.
Proof.
  intros round w'. split; [vm_compute; reflexivity|].
  intros Hinv.
  assert (exists data, tasks_yaml w' = Holds data /\
            data !! sample_day =
              Some [mkTask "write report" 30 0 "started" 0;
                    mkTask "review patch" 60 5 "started" 1000;
                    mkTask "plan sprint" 45 0 "pending" 0])
    as (data & Hfile & Hday).
  { eexists. split; [vm_compute; reflexivity|]. vm_compute. reflexivity. }
  specialize (Hinv _ Hfile _ _ Hday).
  apply Forall_cons in Hinv as [[_ Hrun] _]. by apply Hrun.
Qed.

(** C2, amended: with a clock that does not read the epoch itself, every
    command that goes through the status switch keeps, for every task of
    every day, startedAtEpoch nonzero exactly when the status is started:
    a transition to one of the four recognised statuses, creating,
    deleting, starting the next pending task, finishing, stopping, and
    picking a task and a status.  An unrecognised status is stored as it
    is and leaves the timer alone, so it keeps the invariant exactly
    when the addressed task was not running. *)
Theorem C2_recognised_commands_keep_timer_invariant clk w :
  Unix clk <> 0 ->
  world_invariant w ->
  (forall index status,
     status ∈ status_items ->
     world_invariant (snd (updateStatus clk index status w))) /\
  (forall tommorow titleAnswer estAnswers,
     world_invariant
       (snd (addTaskInteractive clk tommorow titleAnswer estAnswers w))) /\
  (forall pick, world_invariant (snd (deleteTaskInteractive clk pick w))) /\
  (forall choices,
     world_invariant (snd (startNextPendingTask clk choices w))) /\
  world_invariant (snd (finishCurrentTask clk w)) /\
  world_invariant (snd (stopCurrentTask clk w)) /\
  (forall pick statusPick,
     world_invariant (snd (selectTaskAndSetStatus clk pick statusPick w))) /\
  (forall i status data t,
     healthy w data ->
     day_tasks data (todayKey clk) !! i = Some t ->
     status ∉ status_items ->
     world_invariant (snd (updateStatus clk (Z.of_nat i) status w)) <->
     StartedAt t = 0).
Proof.
  intros Hclock Hinv.
  split; [|split; [|split; [|split; [|split; [|split; [|split]]]]]].
  - intros index status Hs. by apply (keeps_updateStatus clk Hclock).
  - intros tm ta ea. by apply (keeps_addTaskInteractive clk).
  - intros pick. by apply (keeps_deleteTaskInteractive clk).
  - intros choices. by apply (keeps_startNextPendingTask clk Hclock).
  - by apply (keeps_finishCurrentTask clk Hclock).
  - by apply (keeps_stopCurrentTask clk Hclock).
  - intros pick sp. by apply (keeps_selectTaskAndSetStatus clk Hclock).
  - intros i status data t Hw Hi Hs.
    exact (updateStatus_unrecognised clk i status w data t Hw Hinv Hi Hs).
Qed.

Lemma C2_recognised_commands_keep_timer_invariant_witness :
  world_invariant (snd (updateStatus sample_clock 1 "done" sample_world)) /\
  world_invariant (snd (stopCurrentTask sample_clock sample_world)).
Proof.
  destruct (C2_recognised_commands_keep_timer_invariant sample_clock
              sample_world) as (Hupdate & _ & _ & _ & _ & Hstop & _).
  - discriminate.
  - apply sample_world_invariant.
  - split; [apply Hupdate, done_is_recognised | exact Hstop].
Defined.

(** * Further properties of the commands *)

(** ** [updateStatus]: errors, frame, and spans *)

(** X1: an index outside today's bucket, a missing or empty bucket included,
    is refused with "invalid task index" and nothing is written or
    printed. *)
Theorem updateStatus_index_error clk index status w data :
  loadTasks w = (Ok data, w) ->
  (index < 0 \/ Z.of_nat (length (day_tasks data (todayKey clk))) <= index) ->
  updateStatus clk index status w = (Err "invalid task index", w).
Proof. apply updateStatus_out_of_range. Qed.

Lemma updateStatus_index_error_witness :
  updateStatus sample_clock 3 "done" sample_world =
    (Err "invalid task index", sample_world) /\
  updateStatus sample_clock 0 "done" (mkWorld Missing None []) =
    (Err "invalid task index", mkWorld Missing None []).
Proof.
  split.
  - apply (updateStatus_index_error sample_clock 3 "done" sample_world
             sample_data); [reflexivity | right; vm_compute; discriminate].
  - apply (updateStatus_index_error sample_clock 0 "done"
             (mkWorld Missing None []) ∅);
      [reflexivity | right; vm_compute; discriminate].
Defined.

(** One successful [updateStatus], with what the next command finds. *)
Lemma updateStatus_step clk i status w data t :
  healthy w data ->
  day_tasks data (todayKey clk) !! i = Some t ->
  exists w' data',
    updateStatus clk (Z.of_nat i) status w = (Ok tt, w') /\
    healthy w' data' /\
    stdout w' = stdout w /\
    day_tasks data' (todayKey clk) =
      alter (applyStatus (Unix clk) status) i (day_tasks data (todayKey clk)) /\
    day_tasks data' (todayKey clk) !! i =
      Some (applyStatus (Unix clk) status t) /\
    forall day, day <> todayKey clk -> day_tasks data' day = day_tasks data day.
Proof.
  intros Hw Hi. eexists _, _. split; [by eapply updateStatus_run|].
  split; [apply healthy_after_save|]. split; [done|].
  rewrite day_tasks_insert. split; [done|]. split.
  - by rewrite list_lookup_alter_eq, Hi.
  - intros day Hne. by apply day_tasks_insert_ne.
Qed.

(** X2: whatever the status, recognised or not, a transition touches one
    task of one day: the bucket keeps its length, every other index and
    every other day is as before, and the addressed task keeps its title
    and estimate. *)
Theorem updateStatus_frame clk i status w data t :
  healthy w data ->
  day_tasks data (todayKey clk) !! i = Some t ->
  exists w' t',
    updateStatus clk (Z.of_nat i) status w = (Ok tt, w') /\
    stored_tasks w' (todayKey clk) !! i = Some t' /\
    Title t' = Title t /\ Estimated t' = Estimated t /\
    length (stored_tasks w' (todayKey clk)) =
      length (day_tasks data (todayKey clk)) /\
    (forall j, j <> i ->
       stored_tasks w' (todayKey clk) !! j =
       day_tasks data (todayKey clk) !! j) /\
    (forall day, day <> todayKey clk ->
       stored_tasks w' day = day_tasks data day) /\
    stdout w' = stdout w.
Proof.
  intros Hw Hi.
  destruct (updateStatus_step clk i status w data t Hw Hi)
    as (w' & data' & Hrun & Hw' & Hout & Htasks & Hi' & Hother).
  exists w', (applyStatus (Unix clk) status t).
  rewrite !(stored_of_healthy w' data') by done.
  split; [done|]. split; [done|].
  assert (Title (applyStatus (Unix clk) status t) = Title t /\
          Estimated (applyStatus (Unix clk) status t) = Estimated t)
    as [HT HE].
  { unfold applyStatus.
    destruct (String.eqb status "started"); [done|].
    destruct (String.eqb status "done" || String.eqb status "cancelled"
              || String.eqb status "pending"); [|done].
    by destruct (negb (StartedAt t =? 0)). }
  split; [done|]. split; [done|]. split.
  { by rewrite Htasks, length_alter. }
  split.
  { intros j Hj. by rewrite Htasks, list_lookup_alter_ne. }
  split; [|done].
  intros day Hne. rewrite (stored_of_healthy w' data') by done.
  by apply Hother.
Qed.

Lemma updateStatus_frame_witness :
  exists w' t',
    updateStatus sample_clock 1 "archived" sample_world = (Ok tt, w') /\
    stored_tasks w' sample_day !! 1%nat = Some t' /\
    Title t' = "review patch" /\ Estimated t' = 60 /\
    stored_tasks w' sample_day !! 0%nat =
      Some (mkTask "write report" 30 0 "pending" 0) /\
    stored_tasks w' sample_day !! 2%nat =
      Some (mkTask "plan sprint" 45 0 "pending" 0).
Proof.
  destruct (updateStatus_frame sample_clock 1 "archived" sample_world
              sample_data (mkTask "review patch" 60 5 "started" 1000))
    as (w' & t' & Hrun & Hi & HT & HE & _ & Hothers & _).
  - split; reflexivity.
  - reflexivity.
  - exists w', t'. repeat split; try assumption.
    + exact (Hothers 0%nat (Nat.neq_0_succ 0)).
    + exact (Hothers 2%nat (not_eq_sym (Nat.lt_neq 1 2 (Nat.lt_succ_diag_r 1)))).
Defined.

Lemma applyStatus_settle_forward now status t :
  status ∈ ["done"; "cancelled"; "pending"] ->
  StartedAt t <> 0 ->
  StartedAt t <= now ->
  GoInt.in_range (now - StartedAt t) ->
  GoInt.in_range (Actual t + (now - StartedAt t) / 60) ->
  applyStatus now status t =
    mkTask (Title t) (Estimated t) (Actual t + (now - StartedAt t) / 60)
      status 0.
Proof.
  intros Hs Hrun Hfwd Hspan Hsum. rewrite applyStatus_leave by done.
  destruct (Z.eqb_spec (StartedAt t) 0); [done|].
  by rewrite elapsed_floor, GoIntFacts.add_exact.
Qed.

(** X3: worked time adds up over spans: start, stop, start again and finish,
    with the clock running forward inside each span, leaves the task
    done, its timer cleared, and its actual minutes raised by the whole
    minutes of the first span plus the whole minutes of the second; the
    seconds left over in a span are dropped with it. *)
Theorem spans_accumulate c0 c1 c2 c3 i w data t :
  healthy w data ->
  day_tasks data (todayKey c0) !! i = Some t ->
  todayKey c1 = todayKey c0 -> todayKey c2 = todayKey c0 ->
  todayKey c3 = todayKey c0 ->
  Unix c0 <> 0 -> Unix c2 <> 0 ->
  Unix c0 <= Unix c1 -> Unix c2 <= Unix c3 ->
  GoInt.in_range (Unix c1 - Unix c0) -> GoInt.in_range (Unix c3 - Unix c2) ->
  GoInt.in_range (Actual t) ->
  Actual t + (Unix c1 - Unix c0) / 60 + (Unix c3 - Unix c2) / 60
    <= GoInt.max_int ->
  exists w1 w2 w3 w4,
    updateStatus c0 (Z.of_nat i) "started" w = (Ok tt, w1) /\
    updateStatus c1 (Z.of_nat i) "pending" w1 = (Ok tt, w2) /\
    updateStatus c2 (Z.of_nat i) "started" w2 = (Ok tt, w3) /\
    updateStatus c3 (Z.of_nat i) "done" w3 = (Ok tt, w4) /\
    stored_tasks w4 (todayKey c0) !! i =
      Some (mkTask (Title t) (Estimated t)
              (Actual t + (Unix c1 - Unix c0) / 60 + (Unix c3 - Unix c2) / 60)
              "done" 0).
Proof.
  intros Hw Hi H1 H2 H3 Hn0 Hn2 Hf1 Hf2 Hr1 Hr2 Hact Hmax.
  assert (0 <= (Unix c1 - Unix c0) / 60) by (apply Z.div_pos; lia).
  assert (0 <= (Unix c3 - Unix c2) / 60) by (apply Z.div_pos; lia).
  assert (forall z, Actual t <= z <= GoInt.max_int -> GoInt.in_range z)
    as Hfit.
  { unfold GoInt.in_range, GoInt.min_int, GoInt.max_int in *. lia. }
  destruct (updateStatus_step c0 i "started" w data t Hw Hi)
    as (w1 & d1 & Hrun1 & Hw1 & _ & _ & Hi1 & _).
  rewrite <- H1 in Hi1.
  destruct (updateStatus_step c1 i "pending" w1 d1 _ Hw1 Hi1)
    as (w2 & d2 & Hrun2 & Hw2 & _ & _ & Hi2 & _).
  rewrite applyStatus_started in Hi2.
  rewrite applyStatus_settle_forward in Hi2;
    [|rewrite !elem_of_cons; auto|simpl; try done; apply Hfit; lia ..].
  simpl in Hi2. rewrite H1, <- H2 in Hi2.
  destruct (updateStatus_step c2 i "started" w2 d2 _ Hw2 Hi2)
    as (w3 & d3 & Hrun3 & Hw3 & _ & _ & Hi3 & _).
  rewrite applyStatus_started in Hi3. simpl in Hi3.
  rewrite H2, <- H3 in Hi3.
  destruct (updateStatus_step c3 i "done" w3 d3 _ Hw3 Hi3)
    as (w4 & d4 & Hrun4 & Hw4 & _ & _ & Hi4 & _).
  rewrite applyStatus_settle_forward in Hi4;
    [|rewrite !elem_of_cons; auto|simpl; try done; apply Hfit; lia ..].
  simpl in Hi4. rewrite H3 in Hi4.
  exists w1, w2, w3, w4. by rewrite (stored_of_healthy w4 d4).
Qed.

Lemma spans_accumulate_witness :
  exists w1 w2 w3 w4,
    updateStatus (mkClock sample_day "2025-03-15" 100 (time.Date 9 0)) 0
      "started" sample_world = (Ok tt, w1) /\
    updateStatus (mkClock sample_day "2025-03-15" 159 (time.Date 9 1)) 0
      "pending" w1 = (Ok tt, w2) /\
    updateStatus (mkClock sample_day "2025-03-15" 200 (time.Date 9 2)) 0
      "started" w2 = (Ok tt, w3) /\
    updateStatus (mkClock sample_day "2025-03-15" 320 (time.Date 9 4)) 0
      "done" w3 = (Ok tt, w4) /\
    stored_tasks w4 sample_day !! 0%nat =
      Some (mkTask "write report" 30 (0 + (159 - 100) / 60 + (320 - 200) / 60)
              "done" 0).
Proof.
  apply (spans_accumulate
           (mkClock sample_day "2025-03-15" 100 (time.Date 9 0))
           (mkClock sample_day "2025-03-15" 159 (time.Date 9 1))
           (mkClock sample_day "2025-03-15" 200 (time.Date 9 2))
           (mkClock sample_day "2025-03-15" 320 (time.Date 9 4))
           0 sample_world sample_data
           (mkTask "write report" 30 0 "pending" 0));
    try reflexivity; try discriminate; try fits_int.
  split; reflexivity.
Defined.

(** ** The running task: [finishCurrentTask] and [stopCurrentTask] *)

Lemma firstStarted_spec (tasks : list Task) : forall k,
  match firstStarted k tasks with
  | Some (i, t) =>
      exists j, i = (k + j)%nat /\ first_with_status "started" tasks j t
  | None => Forall (fun t => Status t <> "started") tasks
  end.
Proof.
  induction tasks as [|t0 rest IH]; intros k; simpl; [done|].
  destruct (String.eqb_spec (Status t0) "started") as [Hs|Hs].
  - exists 0%nat. split; [lia|]. split; [done|]. split; [done|].
    intros j tj Hj. lia.
  - specialize (IH (S k)). destruct (firstStarted (S k) rest) as [[i t]|].
    + destruct IH as (j & -> & Hj & Hst & Hbefore).
      exists (S j). split; [lia|]. split; [done|]. split; [done|].
      intros [|j'] tj Hlt Hl; simpl in Hl.
      * by injection Hl as <-.
      * eapply Hbefore; [|done]. lia.
    + by constructor.
Qed.

Lemma firstStarted_found (tasks : list Task) i t :
  first_with_status "started" tasks i t -> firstStarted 0 tasks = Some (i, t).
Proof.
  intros (Hi & Hst & Hbefore).
  pose proof (firstStarted_spec tasks 0%nat) as Hspec.
  destruct (firstStarted 0 tasks) as [[i' t']|].
  - destruct Hspec as (j & -> & Hj & Hst' & Hbefore'). simpl.
    destruct (Nat.lt_total i j) as [Hlt|[->|Hgt]].
    + by destruct (Hbefore' i t Hlt Hi).
    + rewrite Hi in Hj. by injection Hj as <-.
    + by destruct (Hbefore j t' Hgt Hj).
  - eapply Forall_lookup_1 in Hspec; [|done]. done.
Qed.

Lemma firstStarted_none (tasks : list Task) :
  Forall (fun t => Status t <> "started") tasks -> firstStarted 0 tasks = None.
Proof.
  intros Hnone. pose proof (firstStarted_spec tasks 0%nat) as Hspec.
  destruct (firstStarted 0 tasks) as [[i t]|]; [|done].
  destruct Hspec as (j & _ & Hj & Hst & _).
  eapply Forall_lookup_1 in Hnone; [|done]. done.
Qed.

(** X4: [finishCurrentTask] acts on the first started task of today, in
    bucket order: it is the transition of that task to done, so the task
    is settled and every other task is kept.  With no started task it
    prints a line and changes nothing. *)
Theorem finishCurrentTask_first_started clk w data :
  loadTasks w = (Ok data, w) ->
  (forall i t,
     first_with_status "started" (day_tasks data (todayKey clk)) i t ->
     finishCurrentTask clk w = updateStatus clk (Z.of_nat i) "done" w) /\
  (Forall (fun t => Status t <> "started") (day_tasks data (todayKey clk)) ->
   finishCurrentTask clk w =
     (Ok tt,
      mkWorld (tasks_yaml w) (write_error w)
        (stdout w ++ [Text "No task is currently started."])%list)).
Proof.
  intros Hl. split.
  - intros i t Hfirst. unfold finishCurrentTask, bind. rewrite Hl.
    by rewrite (firstStarted_found _ i t).
  - intros Hnone. unfold finishCurrentTask, bind. rewrite Hl.
    by rewrite firstStarted_none.
Qed.

(** X5: [stopCurrentTask] likewise returns the first started task of today
    to pending, after announcing it; with no started task it prints a
    line and changes nothing. *)
Theorem stopCurrentTask_first_started clk w data :
  loadTasks w = (Ok data, w) ->
  (forall i t,
     first_with_status "started" (day_tasks data (todayKey clk)) i t ->
     stopCurrentTask clk w =
       updateStatus clk (Z.of_nat i) "pending"
         (mkWorld (tasks_yaml w) (write_error w)
            (stdout w ++ [Text ("Stopping task '" +:+ Title t +:+ "'...")])%list))
  /\
  (Forall (fun t => Status t <> "started") (day_tasks data (todayKey clk)) ->
   stopCurrentTask clk w =
     (Ok tt,
      mkWorld (tasks_yaml w) (write_error w)
        (stdout w ++ [Text "No task is currently started."])%list)).
Proof.
  intros Hl. split.
  - intros i t Hfirst. unfold stopCurrentTask, bind. rewrite Hl.
    by rewrite (firstStarted_found _ i t).
  - intros Hnone. unfold stopCurrentTask, bind. rewrite Hl.
    by rewrite firstStarted_none.
Qed.

Lemma finishCurrentTask_first_started_witness :
  finishCurrentTask sample_clock sample_world =
    updateStatus sample_clock 1 "done" sample_world /\
  finishCurrentTask sample_clock (mkWorld Missing None []) =
    (Ok tt, mkWorld Missing None [Text "No task is currently started."]).
Proof.
  split.
  - destruct (finishCurrentTask_first_started sample_clock sample_world
                sample_data eq_refl) as [Hfirst _].
    apply (Hfirst 1%nat (mkTask "review patch" 60 5 "started" 1000)).
    split; [reflexivity|]. split; [reflexivity|].
    intros [|j] tj Hlt Hl; [injection Hl as <-; discriminate|].
    apply Nat.succ_lt_mono in Hlt. by apply Nat.nlt_0_r in Hlt.
  - destruct (finishCurrentTask_first_started sample_clock
                (mkWorld Missing None []) ∅ eq_refl) as [_ Hnone].
    apply Hnone. constructor.
Defined.

Lemma stopCurrentTask_first_started_witness :
  stopCurrentTask sample_clock sample_world =
    updateStatus sample_clock 1 "pending"
      (mkWorld (Holds sample_data) None
         [Text "Stopping task 'review patch'..."]).
Proof.
  destruct (stopCurrentTask_first_started sample_clock sample_world
              sample_data eq_refl) as [Hfirst _].
  apply (Hfirst 1%nat (mkTask "review patch" 60 5 "started" 1000)).
  split; [reflexivity|]. split; [reflexivity|].
  intros [|j] tj Hlt Hl; [injection Hl as <-; discriminate|].
  apply Nat.succ_lt_mono in Hlt. by apply Nat.nlt_0_r in Hlt.
Defined.

(** ** Counting the started tasks *)

Lemma started_count_cons t tasks :
  started_count (t :: tasks) = (started_bit t + started_count tasks)%nat.
Proof.
  unfold started_count, started_bit. rewrite filter_cons.
  by destruct (decide (Status t = "started")).
Qed.

Lemma started_count_app l1 l2 :
  started_count (l1 ++ l2)%list = (started_count l1 + started_count l2)%nat.
Proof. unfold started_count. by rewrite filter_app, length_app. Qed.

Lemma started_count_alter f (tasks : list Task) : forall i t,
  tasks !! i = Some t ->
  (started_count (alter f i tasks) + started_bit t)%nat =
  (started_count tasks + started_bit (f t))%nat.
Proof.
  induction tasks as [|t0 rest IH]; intros [|i] t Hi; try done.
  - injection Hi as ->. change (alter f 0%nat (t :: rest)) with (f t :: rest).
    rewrite !started_count_cons. lia.
  - change (alter f (S i) (t0 :: rest)) with (t0 :: alter f i rest).
    rewrite !started_count_cons. specialize (IH i t Hi). lia.
Qed.

Lemma started_count_take_drop (tasks : list Task) : forall i,
  (started_count (take i tasks ++ drop (S i) tasks)%list
   <= started_count tasks)%nat.
Proof.
  induction tasks as [|t rest IH]; intros [|i]; simpl; try done.
  - rewrite started_count_cons. rewrite drop_0. lia.
  - rewrite !started_count_cons. specialize (IH i). lia.
Qed.

(** ** [startNextPendingTask]: which task is offered and started *)

Lemma healthy_after_print w data out :
  healthy w data ->
  healthy (mkWorld (tasks_yaml w) (write_error w) out) data.
Proof.
  intros [Hl Hw]. split; [|done]. unfold loadTasks in *. simpl.
  destruct (tasks_yaml w); by inversion Hl.
Qed.

Lemma any_status_false status (tasks : list Task) :
  any_status status tasks = false <->
  Forall (fun t => Status t <> status) tasks.
Proof.
  unfold any_status. induction tasks as [|t rest IH]; simpl.
  - split; [by constructor|done].
  - rewrite orb_false_iff, IH, Forall_cons, String.eqb_neq. tauto.
Qed.

Lemma offerPending_start clk (rest : list Task) : forall k j t choices,
  first_with_status "pending" rest j t ->
  offerPending clk k rest (Ok 0%nat :: choices) =
    (println ("Starting '" +:+ Title t +:+ "'...") ;;;
     updateStatus clk (Z.of_nat (k + j)) "started").
Proof.
  induction rest as [|t0 rest IH]; intros k [|j] t choices (Hj & Hst & Hb);
    try done; simpl in Hj.
  - injection Hj as ->. simpl. rewrite Hst. simpl.
    by rewrite Nat.add_0_r.
  - simpl. assert (String.eqb (Status t0) "pending" = false) as ->.
    { apply String.eqb_neq. apply (Hb 0%nat t0); [lia|done]. }
    rewrite (IH (S k) j t); [by rewrite Nat.add_succ_comm|].
    split; [done|]. split; [done|].
    intros j' tj Hlt Hl. apply (Hb (S j') tj); [lia|done].
Qed.

Lemma offerPending_no_start clk (rest : list Task) : forall k choices w,
  Forall (fun c => c <> Ok 0%nat) choices ->
  tasks_yaml (snd (offerPending clk k rest choices w)) = tasks_yaml w.
Proof.
  induction rest as [|t0 rest IH]; intros k choices w Hno; simpl; [done|].
  destruct (String.eqb (Status t0) "pending"); [|by apply IH].
  destruct choices as [|pick choices']; [done|].
  apply Forall_cons in Hno as [Hpick Hno].
  destruct pick as [[|[|n]]|e]; simpl;
    [done | by apply IH | done | by rewrite prompt_failed_keeps].
Qed.

(** X6: with no task started, accepting the offer starts the first pending
    task of today, in bucket order: that task gets status started and
    the clock's time as its timer, nothing else in the bucket changes,
    and the start is announced. *)
Theorem startNextPendingTask_starts_first_pending clk choices w data i t :
  healthy w data ->
  Forall (fun t => Status t <> "started") (day_tasks data (todayKey clk)) ->
  first_with_status "pending" (day_tasks data (todayKey clk)) i t ->
  exists w',
    startNextPendingTask clk (Ok 0%nat :: choices) w = (Ok tt, w') /\
    stored_tasks w' (todayKey clk) =
      <[i := mkTask (Title t) (Estimated t) (Actual t) "started" (Unix clk)]>
        (day_tasks data (todayKey clk)) /\
    stdout w' =
      (stdout w ++ [Text ("Starting '" +:+ Title t +:+ "'...")])%list.
Proof.
  intros Hw Hnone Hfirst.
  unfold startNextPendingTask, bind. rewrite (proj1 Hw).
  assert (any_status "started" (day_tasks data (todayKey clk)) = false) as ->
    by by apply any_status_false.
  rewrite (offerPending_start clk _ 0 i t) by done.
  unfold bind, println, print. simpl.
  destruct Hfirst as (Hi & _ & _).
  erewrite updateStatus_run; [|by apply healthy_after_print|exact Hi].
  eexists. split; [done|]. rewrite stored_after_save. simpl. split; [|done].
  apply list_eq. intros j. destruct (decide (i = j)) as [<-|Hne].
  - by rewrite list_lookup_alter_eq, Hi,
      list_lookup_insert_eq by (by eapply lookup_lt_Some).
  - by rewrite list_lookup_alter_ne, list_lookup_insert_ne.
Qed.

Lemma startNextPendingTask_starts_first_pending_witness :
  exists w',
    startNextPendingTask sample_clock [Ok 0%nat]
      (mkWorld (Holds two_task_data) None []) = (Ok tt, w') /\
    stored_tasks w' sample_day =
      [mkTask "plan sprint" 45 0 "done" 0;
       mkTask "write report" 30 0 "started" 1600] /\
    stdout w' = [Text "Starting 'write report'..."].
Proof.
  destruct (startNextPendingTask_starts_first_pending sample_clock []
              (mkWorld (Holds two_task_data) None []) two_task_data
              1 (mkTask "write report" 30 0 "pending" 0))
    as (w' & Hrun & Hstored & Hout).
  - split; reflexivity.
  - repeat constructor; discriminate.
  - split; [reflexivity|]. split; [reflexivity|].
    intros [|j] tj Hlt Hl; [injection Hl as <-; discriminate|].
    apply Nat.succ_lt_mono in Hlt. by apply Nat.nlt_0_r in Hlt.
  - exists w'. split; [exact Hrun|]. split; [exact Hstored | exact Hout].
Defined.

(** X7: [startNextPendingTask] writes nothing unless an offer is accepted:
    whatever the bucket holds, when no answer is "Start" the file is left
    as it was; and with neither a started nor a pending task it asks
    nothing and reports that there is nothing to start. *)
Theorem startNextPendingTask_without_start clk choices w data :
  loadTasks w = (Ok data, w) ->
  (Forall (fun c => c <> Ok 0%nat) choices ->
   tasks_yaml (snd (startNextPendingTask clk choices w)) = tasks_yaml w) /\
  (Forall (fun t => Status t <> "started" /\ Status t <> "pending")
     (day_tasks data (todayKey clk)) ->
   startNextPendingTask clk choices w =
     (Ok tt,
      mkWorld (tasks_yaml w) (write_error w)
        (stdout w ++ [Text "No pending tasks to start."])%list)).
Proof.
  intros Hl. unfold startNextPendingTask, bind. rewrite Hl. split.
  - intros Hno. destruct (any_status "started" _); [done|].
    by apply offerPending_no_start.
  - intros Hnone.
    assert (any_status "started" (day_tasks data (todayKey clk)) = false)
      as ->.
    { apply any_status_false. eapply Forall_impl; [done|]. by intros ? [? _]. }
    assert (forall k cs,
              offerPending clk k (day_tasks data (todayKey clk)) cs =
              println "No pending tasks to start.") as ->; [|done].
    induction (day_tasks data (todayKey clk)) as [|t0 rest IH];
      intros k cs; simpl; [done|].
    apply Forall_cons in Hnone as [[_ Hp] Hnone].
    apply String.eqb_neq in Hp. rewrite Hp. by apply IH.
Qed.

Lemma startNextPendingTask_without_start_witness :
  tasks_yaml
    (snd (startNextPendingTask sample_clock [Ok 1%nat; Ok 1%nat]
            (mkWorld
               (Holds {[ sample_day := [mkTask "write report" 30 0 "pending" 0] ]})
               None []))) =
    Holds {[ sample_day := [mkTask "write report" 30 0 "pending" 0] ]}.
Proof.
  destruct (startNextPendingTask_without_start sample_clock
              [Ok 1%nat; Ok 1%nat]
              (mkWorld
                 (Holds {[ sample_day := [mkTask "write report" 30 0 "pending" 0] ]})
                 None [])
              {[ sample_day := [mkTask "write report" 30 0 "pending" 0] ]}
              eq_refl) as [Hskip _].
  apply Hskip. repeat constructor; discriminate.
Defined.

(** ** At most one running task *)

Section Triples.

Context {E : World -> Prop}.

Lemma triple_ret {A} (a : A) (P : World -> Prop) (R : A -> World -> Prop) :
  (forall w, P w -> R a w) -> triple E P (ret a) R.
Proof. intros HPR w Hw. by apply HPR. Qed.

Lemma triple_fail {A} e (P : World -> Prop) (R : A -> World -> Prop) :
  (forall w, P w -> E w) -> triple E P (fail e) R.
Proof. intros HPE w Hw. by apply HPE. Qed.

Lemma triple_bind {A B} (c : IO A) (k : A -> IO B) P R S :
  triple E P c R ->
  (forall a, triple E (R a) (k a) S) ->
  triple E P (bind c k) S.
Proof.
  intros Hc Hk w Hw. unfold bind. specialize (Hc w Hw).
  destruct (c w) as [[a|e] w']; [|done]. by apply Hk.
Qed.

Lemma triple_pre {A} (c : IO A) (P P' : World -> Prop) R :
  (forall w, P w -> P' w) -> triple E P' c R -> triple E P c R.
Proof. intros HPP Hc w Hw. by apply Hc, HPP. Qed.

Lemma triple_load (P : World -> Prop) :
  (forall w, P w -> E w) ->
  triple E P loadTasks (fun data w => loadTasks w = (Ok data, w) /\ P w).
Proof.
  intros HPE w Hw. unfold loadTasks at 1.
  destruct (tasks_yaml w) as [|e|d] eqn:Hfile.
  - split; [|done]. unfold loadTasks. by rewrite Hfile.
  - by apply HPE.
  - split; [|done]. unfold loadTasks. by rewrite Hfile.
Qed.

Lemma triple_save d (P : World -> Prop) (R : unit -> World -> Prop) :
  (forall w, P w -> R tt (mkWorld (Holds d) None (stdout w))) ->
  (forall w, P w -> E w) ->
  triple E P (saveTasks d) R.
Proof.
  intros HR HPE w Hw. unfold saveTasks.
  destruct (write_error w); [by apply HPE | by apply HR].
Qed.

Lemma triple_print o (P : World -> Prop) (R : unit -> World -> Prop) :
  (forall w, P w ->
     R tt (mkWorld (tasks_yaml w) (write_error w) (stdout w ++ [o])%list)) ->
  triple E P (print o) R.
Proof. intros HR w Hw. by apply HR. Qed.

Lemma triple_prompt_failed e (P : World -> Prop) (R : unit -> World -> Prop) :
  (forall w, P w -> E w) -> (forall w, P w -> R tt w) ->
  triple E P (prompt_failed e) R.
Proof.
  intros HPE HPR. unfold prompt_failed.
  destruct (String.eqb e "interrupt" || String.eqb e "q");
    [by apply triple_ret | by apply triple_fail].
Qed.

End Triples.

Lemma applyStatus_status now status t :
  Status (applyStatus now status t) = status.
Proof.
  unfold applyStatus.
  destruct (String.eqb_spec status "started") as [->|_]; [done|].
  destruct (String.eqb status "done" || String.eqb status "cancelled"
            || String.eqb status "pending"); [|done].
  by destruct (negb (StartedAt t =? 0)).
Qed.

Lemma single_runner_insert (data : TaskData) day tasks :
  single_runner data ->
  (started_count tasks <= 1)%nat ->
  single_runner (<[day := tasks]> data).
Proof.
  intros Hd Ht day' tasks' Hl.
  destruct (decide (day = day')) as [<-|Hne].
  - rewrite lookup_insert_eq in Hl. by injection Hl as <-.
  - rewrite lookup_insert_ne in Hl by done. by eapply Hd.
Qed.

Lemma single_runner_day data day :
  single_runner data -> (started_count (day_tasks data day) <= 1)%nat.
Proof.
  intros Hd. unfold day_tasks.
  destruct (data !! day) as [tasks|] eqn:Hl; simpl; [by eapply Hd|].
  unfold started_count. simpl. lia.
Qed.

Lemma alter_outside f (tasks : list Task) i :
  tasks !! i = None -> alter f i tasks = tasks.
Proof.
  intros Hi. apply list_eq. intros j. destruct (decide (i = j)) as [<-|Hne].
  - by rewrite list_lookup_alter_eq, Hi.
  - by rewrite list_lookup_alter_ne.
Qed.

Lemma started_count_alter_le f (tasks : list Task) i :
  (forall t, started_bit (f t) = 0%nat) ->
  (started_count (alter f i tasks) <= started_count tasks)%nat.
Proof.
  intros Hf. destruct (tasks !! i) as [t|] eqn:Hi.
  - pose proof (started_count_alter f tasks i t Hi). rewrite Hf in *. lia.
  - by rewrite alter_outside.
Qed.

Lemma started_count_alter_start f (tasks : list Task) i :
  (started_count (alter f i tasks) <= S (started_count tasks))%nat.
Proof.
  destruct (tasks !! i) as [t|] eqn:Hi.
  - pose proof (started_count_alter f tasks i t Hi).
    unfold started_bit in *.
    destruct (decide (Status t = "started")),
      (decide (Status (f t) = "started")); lia.
  - rewrite alter_outside by done. lia.
Qed.

Lemma started_count_none (tasks : list Task) :
  Forall (fun t => Status t <> "started") tasks -> started_count tasks = 0%nat.
Proof.
  induction 1 as [|t rest Ht _ IH]; [done|].
  rewrite started_count_cons, IH. unfold started_bit.
  by destruct (decide (Status t = "started")).
Qed.


Lemma file_holds_print P w out :
  file_holds P w ->
  file_holds P (mkWorld (tasks_yaml w) (write_error w) out).
Proof.
  intros Hw d Hd. apply Hw. unfold loadTasks in *. simpl in Hd.
  destruct (tasks_yaml w); by inversion Hd.
Qed.

Lemma file_holds_saved (P : TaskData -> Prop) d out :
  P d -> file_holds P (mkWorld (Holds d) None out).
Proof. intros HP d' Hd'. unfold loadTasks in Hd'. by injection Hd' as <-. Qed.

Lemma triple_final {A} (E : World -> Prop) (c : IO A) w :
  triple E E c (fun _ => E) -> E w -> E (snd (c w)).
Proof.
  intros Hc Hw. specialize (Hc w Hw). by destruct (c w) as [[a|e] w'].
Qed.

(** The commands that respect the single running task. *)
Section SingleRunner.

Variable clk : Clock.

Definition runner_ok (w : World) : Prop := file_holds single_runner w.

(** No task of today is started. *)
Definition idle (w : World) : Prop :=
  file_holds
    (fun d => single_runner d /\
              started_count (day_tasks d (todayKey clk)) = 0%nat) w.

Lemma idle_runner_ok w : idle w -> runner_ok w.
Proof. intros Hw d Hd. by apply Hw. Qed.

Lemma runner_updateStatus_leave index status :
  status <> "started" ->
  triple runner_ok runner_ok (updateStatus clk index status)
    (fun _ => runner_ok).
Proof.
  intros Hs. unfold updateStatus.
  eapply triple_bind; [by apply triple_load|]. intros data. simpl.
  destruct ((index <? 0)
            || (index >=? Z.of_nat (length (day_tasks data (todayKey clk))))).
  { apply triple_fail. by intros w [_ ?]. }
  apply triple_save; [|by intros w [_ ?]].
  intros w [Hl Hw]. apply file_holds_saved.
  apply single_runner_insert; [by apply Hw|].
  etransitivity; [apply started_count_alter_le|].
  - intros t. unfold started_bit. rewrite applyStatus_status.
    by destruct (decide (status = "started")).
  - by apply single_runner_day, Hw.
Qed.

Lemma runner_updateStatus_start index :
  triple runner_ok idle (updateStatus clk index "started")
    (fun _ => runner_ok).
Proof.
  unfold updateStatus.
  eapply triple_bind; [apply triple_load, idle_runner_ok|].
  intros data. simpl.
  destruct ((index <? 0)
            || (index >=? Z.of_nat (length (day_tasks data (todayKey clk))))).
  { apply triple_fail. intros w [_ ?]. by apply idle_runner_ok. }
  apply triple_save; [|intros w [_ ?]; by apply idle_runner_ok].
  intros w [Hl Hw]. apply file_holds_saved.
  destruct (Hw data Hl) as [Hd Hzero].
  apply single_runner_insert; [done|].
  etransitivity; [apply started_count_alter_start|]. by rewrite Hzero.
Qed.

Lemma runner_offerPending tasks : forall i choices,
  triple runner_ok idle (offerPending clk i tasks choices)
    (fun _ => runner_ok).
Proof.
  induction tasks as [|t rest IH]; intros i choices; simpl.
  { apply triple_print. intros w Hw. by apply file_holds_print, idle_runner_ok. }
  destruct (String.eqb (Status t) "pending"); [|apply IH].
  destruct choices as [|pick choices'].
  { apply triple_prompt_failed; apply idle_runner_ok. }
  destruct (Select_Run ["Start"; "Skip"] pick) as [[n choice]|e].
  - destruct (String.eqb choice "Start"); [|apply IH].
    eapply triple_bind with (R := fun _ => idle).
    + apply triple_print. intros w Hw. by apply file_holds_print.
    + intros _. apply runner_updateStatus_start.
  - apply triple_prompt_failed; apply idle_runner_ok.
Qed.

Lemma runner_startNextPendingTask choices :
  triple runner_ok runner_ok (startNextPendingTask clk choices)
    (fun _ => runner_ok).
Proof.
  unfold startNextPendingTask.
  eapply triple_bind; [by apply triple_load|]. intros data. simpl.
  destruct (any_status "started" (day_tasks data (todayKey clk))) eqn:Hany.
  { apply triple_print. intros w [_ Hw]. by apply file_holds_print. }
  eapply triple_pre; [|apply runner_offerPending].
  intros w [Hl Hw] d Hd. rewrite Hl in Hd. injection Hd as <-.
  split; [by apply Hw|]. by apply started_count_none, any_status_false.
Qed.

Lemma runner_finishCurrentTask :
  triple runner_ok runner_ok (finishCurrentTask clk) (fun _ => runner_ok).
Proof.
  unfold finishCurrentTask.
  eapply triple_bind; [by apply triple_load|]. intros data.
  eapply triple_pre with (P' := runner_ok); [by intros w [_ ?]|].
  destruct (firstStarted 0 _) as [[i t]|].
  - by apply runner_updateStatus_leave.
  - apply triple_print. intros w Hw. by apply file_holds_print.
Qed.

Lemma runner_stopCurrentTask :
  triple runner_ok runner_ok (stopCurrentTask clk) (fun _ => runner_ok).
Proof.
  unfold stopCurrentTask.
  eapply triple_bind; [by apply triple_load|]. intros data.
  eapply triple_pre with (P' := runner_ok); [by intros w [_ ?]|].
  destruct (firstStarted 0 _) as [[i t]|].
  - eapply triple_bind with (R := fun _ => runner_ok).
    + apply triple_print. intros w Hw. by apply file_holds_print.
    + intros _. by apply runner_updateStatus_leave.
  - apply triple_print. intros w Hw. by apply file_holds_print.
Qed.

Lemma runner_addTaskInteractive tommorow titleAnswer estAnswers :
  triple runner_ok runner_ok
    (addTaskInteractive clk tommorow titleAnswer estAnswers)
    (fun _ => runner_ok).
Proof.
  unfold addTaskInteractive.
  eapply triple_bind; [by apply triple_load|]. intros data. simpl.
  destruct (promptWithCursor _ "" titleAnswer) as [title|e].
  2:{ by apply triple_prompt_failed; intros w [_ ?]. }
  destruct (Prompt_Run estimate_valid estAnswers) as [estInput|e].
  2:{ by apply triple_prompt_failed; intros w [_ ?]. }
  eapply triple_bind
    with (R := fun _ w => loadTasks w = (Ok data, w) /\ runner_ok w).
  { destruct (_ >? _); [|by apply triple_ret].
    apply triple_print. intros w [Hl Hw]. split.
    - unfold loadTasks in *. simpl. destruct (tasks_yaml w); by inversion Hl.
    - by apply file_holds_print. }
  intros _. apply triple_save; [|by intros w [_ ?]].
  intros w [Hl Hw]. apply file_holds_saved.
  apply single_runner_insert; [by apply Hw|].
  rewrite started_count_app. unfold started_count at 2. simpl.
  rewrite Nat.add_0_r. by apply single_runner_day, Hw.
Qed.

Lemma runner_deleteTaskInteractive pick :
  triple runner_ok runner_ok (deleteTaskInteractive clk pick)
    (fun _ => runner_ok).
Proof.
  unfold deleteTaskInteractive.
  eapply triple_bind; [by apply triple_load|]. intros data. simpl.
  destruct (Nat.eqb _ 0).
  { apply triple_print. intros w [_ Hw]. by apply file_holds_print. }
  destruct (Select_Run _ pick) as [[index t]|e].
  2:{ by apply triple_prompt_failed; intros w [_ ?]. }
  apply triple_save; [|by intros w [_ ?]].
  intros w [Hl Hw]. apply file_holds_saved.
  apply single_runner_insert; [by apply Hw|].
  etransitivity; [apply started_count_take_drop|].
  by apply single_runner_day, Hw.
Qed.

End SingleRunner.

(** X8: starting the next pending task, finishing, stopping, creating,
    deleting, and any transition to a status other than started keep "at
    most one started task in each day", whatever the user answers and
    whether or not the command succeeds. *)
Theorem single_runner_kept clk w :
  file_holds single_runner w ->
  (forall choices,
     file_holds single_runner (snd (startNextPendingTask clk choices w))) /\
  file_holds single_runner (snd (finishCurrentTask clk w)) /\
  file_holds single_runner (snd (stopCurrentTask clk w)) /\
  (forall tommorow titleAnswer estAnswers,
     file_holds single_runner
       (snd (addTaskInteractive clk tommorow titleAnswer estAnswers w))) /\
  (forall pick,
     file_holds single_runner (snd (deleteTaskInteractive clk pick w))) /\
  (forall index status,
     status <> "started" ->
     file_holds single_runner (snd (updateStatus clk index status w))).
Proof.
  intros Hw. split; [|split; [|split; [|split; [|split]]]].
  - intros choices.
    apply (triple_final runner_ok); [by apply runner_startNextPendingTask | exact Hw].
  - apply (triple_final runner_ok); [by apply runner_finishCurrentTask | exact Hw].
  - apply (triple_final runner_ok); [by apply runner_stopCurrentTask | exact Hw].
  - intros tm ta ea.
    apply (triple_final runner_ok); [by apply runner_addTaskInteractive | exact Hw].
  - intros pick.
    apply (triple_final runner_ok); [by apply runner_deleteTaskInteractive | exact Hw].
  - intros index status Hs.
    apply (triple_final runner_ok); [by apply runner_updateStatus_leave | exact Hw].
Qed.

Lemma sample_world_single_runner : file_holds single_runner sample_world.
Proof.
  intros data [= <-] day tasks Hl. unfold sample_data in Hl.
  apply lookup_singleton_Some in Hl as [_ <-]. vm_compute. lia.
Qed.

Lemma single_runner_kept_witness :
  file_holds single_runner
    (snd (startNextPendingTask sample_clock [Ok 0%nat] sample_world)) /\
  file_holds single_runner (snd (stopCurrentTask sample_clock sample_world)).
Proof.
  destruct (single_runner_kept sample_clock sample_world
              sample_world_single_runner) as (Hnext & _ & Hstop & _).
  split; [apply Hnext | exact Hstop].
Defined.

Lemma started_count_one (tasks : list Task) : forall i t,
  tasks !! i = Some t -> (started_bit t <= started_count tasks)%nat.
Proof.
  induction tasks as [|t0 rest IH]; intros [|i] t Hi; try done;
    rewrite started_count_cons; simpl in Hi.
  - injection Hi as ->. lia.
  - specialize (IH i t Hi). lia.
Qed.

Lemma started_count_two (tasks : list Task) : forall i j a b,
  i <> j -> tasks !! i = Some a -> tasks !! j = Some b ->
  (started_bit a + started_bit b <= started_count tasks)%nat.
Proof.
  induction tasks as [|t0 rest IH]; intros [|i] [|j] a b Hne Hi Hj;
    try done; rewrite started_count_cons; simpl in Hi, Hj.
  - injection Hi as ->. pose proof (started_count_one rest j b Hj). lia.
  - injection Hj as ->. pose proof (started_count_one rest i a Hi). lia.
  - assert (i <> j) as Hne' by congruence.
    specialize (IH i j a b Hne' Hi Hj). lia.
Qed.

Lemma selectTaskAndSetStatus_run clk i k status w data t :
  loadTasks w = (Ok data, w) ->
  day_tasks data (todayKey clk) !! i = Some t ->
  status_items !! k = Some status ->
  selectTaskAndSetStatus clk (Ok i) (Ok k) w =
    updateStatus clk (Z.of_nat i) status w.
Proof.
  intros Hl Hi Hk. unfold selectTaskAndSetStatus, bind. rewrite Hl.
  destruct (day_tasks data (todayKey clk)) as [|t0 rest] eqn:Htasks;
    [done|].
  cbn [length Nat.eqb]. unfold Select_Run. by rewrite Hi, Hk.
Qed.

(** X9: the status command does not look for a running task: picking a task
    and "started" starts it, with the clock's time as its timer, beside a
    task that is already started, which is left running; the day then
    holds at least two started tasks. *)
Theorem selectTaskAndSetStatus_starts_beside_running clk w data i j t tj :
  healthy w data ->
  day_tasks data (todayKey clk) !! i = Some t ->
  day_tasks data (todayKey clk) !! j = Some tj ->
  i <> j ->
  Status tj = "started" ->
  exists w',
    selectTaskAndSetStatus clk (Ok i) (Ok 1%nat) w = (Ok tt, w') /\
    stored_tasks w' (todayKey clk) !! i =
      Some (mkTask (Title t) (Estimated t) (Actual t) "started" (Unix clk)) /\
    stored_tasks w' (todayKey clk) !! j = Some tj /\
    (2 <= started_count (stored_tasks w' (todayKey clk)))%nat.
Proof.
  intros Hw Hi Hj Hne Hst.
  destruct (updateStatus_step clk i "started" w data t Hw Hi)
    as (w' & data' & Hrun & Hw' & _ & Htasks & Hi' & _).
  exists w'. rewrite (stored_of_healthy w' data') by done.
  split.
  { erewrite selectTaskAndSetStatus_run; [done|by destruct Hw|done|done]. }
  assert (day_tasks data' (todayKey clk) !! j = Some tj) as Hj'.
  { by rewrite Htasks, list_lookup_alter_ne. }
  split; [done|]. split; [done|].
  pose proof (started_count_two _ i j _ _ Hne Hi' Hj') as Htwo.
  unfold started_bit in Htwo. rewrite applyStatus_status, Hst in Htwo.
  by destruct (decide ("started" = "started")).
Qed.

Lemma selectTaskAndSetStatus_starts_beside_running_witness :
  exists w',
    selectTaskAndSetStatus sample_clock (Ok 0%nat) (Ok 1%nat) sample_world =
      (Ok tt, w') /\
    stored_tasks w' sample_day =
      [mkTask "write report" 30 0 "started" 1600;
       mkTask "review patch" 60 5 "started" 1000;
       mkTask "plan sprint" 45 0 "pending" 0].
Proof.
  destruct (selectTaskAndSetStatus_starts_beside_running sample_clock
              sample_world sample_data 0 1
              (mkTask "write report" 30 0 "pending" 0)
              (mkTask "review patch" 60 5 "started" 1000))
    as (w' & Hrun & _).
  - split; reflexivity.
  - reflexivity.
  - reflexivity.
  - discriminate.
  - reflexivity.
  - exists w'. split; [exact Hrun|].
    assert (w' = snd (selectTaskAndSetStatus sample_clock (Ok 0%nat)
                        (Ok 1%nat) sample_world)) as ->
      by (rewrite Hrun; reflexivity).
    vm_compute. reflexivity.
Defined.

(** X10: with at most one task started, finishing or stopping leaves no task
    of today started. *)
Theorem finish_and_stop_clear_the_runner clk w data :
  healthy w data ->
  (started_count (day_tasks data (todayKey clk)) <= 1)%nat ->
  started_count (stored_tasks (snd (finishCurrentTask clk w)) (todayKey clk))
    = 0%nat /\
  started_count (stored_tasks (snd (stopCurrentTask clk w)) (todayKey clk))
    = 0%nat.
Proof.
  intros Hw Hone.
  assert (forall status out,
            status <> "started" ->
            forall i t,
              first_with_status "started" (day_tasks data (todayKey clk)) i t ->
              started_count
                (stored_tasks
                   (snd (updateStatus clk (Z.of_nat i) status
                           (mkWorld (tasks_yaml w) (write_error w) out)))
                   (todayKey clk)) = 0%nat) as Hleave.
  { intros status out Hs i t (Hi & Hst & _).
    erewrite updateStatus_run; [|by apply healthy_after_print|done].
    simpl. rewrite stored_after_save.
    pose proof (started_count_alter (applyStatus (Unix clk) status)
                  (day_tasks data (todayKey clk)) i t Hi) as Hcount.
    unfold started_bit in Hcount. rewrite applyStatus_status, Hst in Hcount.
    destruct (decide ("started" = "started")); [|done].
    destruct (decide (status = "started")); [done|]. lia. }
  assert (forall out,
            Forall (fun t => Status t <> "started")
              (day_tasks data (todayKey clk)) ->
            started_count
              (stored_tasks (mkWorld (tasks_yaml w) (write_error w) out)
                 (todayKey clk)) = 0%nat) as Hnone.
  { intros out Hno.
    rewrite (stored_of_healthy _ data) by (by apply healthy_after_print).
    by apply started_count_none. }
  pose proof (firstStarted_spec (day_tasks data (todayKey clk)) 0%nat) as Hspec.
  unfold finishCurrentTask, stopCurrentTask, bind.
  rewrite (proj1 Hw).
  destruct (firstStarted 0 (day_tasks data (todayKey clk))) as [[i t]|].
  - destruct Hspec as (j & -> & Hfirst). simpl. split.
    + destruct w. by apply (Hleave "done" _ ltac:(discriminate) j t).
    + by apply (Hleave "pending" _ ltac:(discriminate) j t).
  - split; by apply Hnone.
Qed.

Lemma finish_and_stop_clear_the_runner_witness :
  started_count
    (stored_tasks (snd (finishCurrentTask sample_clock sample_world))
       sample_day) = 0%nat /\
  started_count
    (stored_tasks (snd (stopCurrentTask sample_clock sample_world))
       sample_day) = 0%nat.
Proof.
  apply (finish_and_stop_clear_the_runner sample_clock sample_world
           sample_data).
  - split; reflexivity.
  - vm_compute. apply le_n.
Defined.

(** ** Reading back a printed integer *)

Lemma digit_pretty_N_char m :
  (m < 10)%N -> strconv.digit (pretty_N_char m) = Some (Z.of_N m).
Proof.
  intros Hm.
  assert (m = 0 \/ m = 1 \/ m = 2 \/ m = 3 \/ m = 4 \/ m = 5 \/ m = 6
          \/ m = 7 \/ m = 8 \/ m = 9)%N as Hcases by lia.
  repeat (destruct Hcases as [->|Hcases]; [reflexivity|]).
  by subst.
Qed.

Lemma digits_pretty_N_go x : forall s,
  strconv.digits (pretty_N_go x s) 0 = strconv.digits s (Z.of_N x).
Proof.
  induction (N.lt_wf_0 x) as [x _ IH]. intros s.
  destruct (N.eq_0_gt_0_cases x) as [->|Hpos]; [done|].
  rewrite pretty_N_go_step by done.
  rewrite IH by (by apply N.div_lt). simpl.
  rewrite digit_pretty_N_char by (by apply N.mod_lt).
  f_equal. rewrite (N.div_mod x 10) at 3 by done. lia.
Qed.

Lemma digits_head c rest acc v :
  strconv.digits (String c rest) acc = Some v ->
  c <> "-"%char /\ c <> "+"%char.
Proof.
  simpl. destruct (strconv.digit c) eqn:Hd; [|done]. intros _.
  split; intros ->; discriminate.
Qed.

Lemma Atoi_unsigned c rest v :
  strconv.digits (String c rest) 0 = Some v ->
  GoInt.in_range v ->
  strconv.Atoi (String c rest) = (v, true).
Proof.
  intros Hd Hr. destruct (digits_head _ _ _ _ Hd) as [Hminus Hplus].
  unfold strconv.Atoi.
  assert ((match String c rest with
           | String "-" r => (true, r)
           | String "+" r => (false, r)
           | _ => (false, String c rest)
           end) = (false, String c rest)) as ->.
  { destruct c as [[] [] [] [] [] [] [] []]; try done. }
  rewrite Hd. unfold GoInt.in_range in Hr.
  destruct (Z.ltb_spec v GoInt.min_int); [lia|].
  by destruct (Z.gtb_spec v GoInt.max_int); [lia|].
Qed.

Lemma pretty_N_go_nonempty x : (0 < x)%N -> pretty_N_go x "" <> "".
Proof.
  intros Hx Hempty. pose proof (digits_pretty_N_go x "") as Hd.
  rewrite Hempty in Hd. simpl in Hd. injection Hd as Hd. lia.
Qed.

(** [strconv.Atoi] reads back what [strconv.Itoa] prints. *)
Lemma Atoi_Itoa n : GoInt.in_range n -> strconv.Atoi (strconv.Itoa n) = (n, true).
Proof.
  intros Hr. unfold strconv.Itoa, pretty, pretty_Z.
  destruct n as [|p|p]; [done| |].
  - unfold pretty, pretty_positive, pretty, pretty_N.
    destruct (decide (N.pos p = 0%N)); [done|].
    pose proof (pretty_N_go_nonempty (N.pos p) ltac:(lia)) as Hne.
    pose proof (digits_pretty_N_go (N.pos p) "") as Hd. simpl in Hd.
    destruct (pretty_N_go (N.pos p) "") as [|c rest]; [done|].
    by apply Atoi_unsigned.
  - unfold pretty, pretty_positive, pretty, pretty_N.
    destruct (decide (N.pos p = 0%N)); [done|].
    pose proof (pretty_N_go_nonempty (N.pos p) ltac:(lia)) as Hne.
    pose proof (digits_pretty_N_go (N.pos p) "") as Hd. simpl in Hd.
    unfold strconv.Atoi.
    destruct (pretty_N_go (N.pos p) "") as [|c rest]; [done|].
    change ("-" +:+ String c rest) with (String "-" (String c rest)).
    cbv iota beta. rewrite Hd. unfold GoInt.in_range in Hr.
    change (- Z.pos p) with (Z.neg p).
    destruct (Z.ltb_spec (Z.neg p) GoInt.min_int); [lia|].
    by destruct (Z.gtb_spec (Z.neg p) GoInt.max_int); [lia|].
Qed.

Lemma Itoa_not_q n : GoInt.in_range n -> strconv.Itoa n <> "q".
Proof.
  intros Hr Hq. pose proof (Atoi_Itoa n Hr) as Hback.
  rewrite Hq in Hback. discriminate.
Qed.

(** ** The view/edit loop of [listTasksInteractive] *)

Lemma printReport_run tommorow tot minutesLeft ratio w :
  exists out,
    printReport tommorow tot minutesLeft ratio w =
      (Ok tt, mkWorld (tasks_yaml w) (write_error w) out).
Proof.
  unfold printReport, bind, print. simpl.
  destruct tommorow; simpl; eauto.
Qed.

(** On a non-empty bucket the command prints its report and enters the
    loop with the file as it found it. *)
Lemma listTasksInteractive_enter clk (tommorow : bool) rounds w data :
  loadTasks w = (Ok data, w) ->
  let today := if tommorow then tomorrowKey clk else todayKey clk in
  day_tasks data today <> [] ->
  exists out,
    listTasksInteractive clk tommorow rounds w =
      editLoop today data (day_tasks data today) rounds
        (mkWorld (tasks_yaml w) (write_error w) out).
Proof.
  intros Hl today Hne. unfold listTasksInteractive, bind. rewrite Hl.
  fold today. destruct (day_tasks data today) as [|t0 rest] eqn:Htasks;
    [done|].
  cbn [length Nat.eqb].
  destruct (printReport_run tommorow (dayTotals (t0 :: rest))
              (remainingMinutesToday (Now clk))
              (workloadRatio (remainingWork (dayTotals (t0 :: rest)))
                 (remainingMinutesToday (Now clk))) w) as [out ->].
  by exists out.
Qed.

Lemma editLoop_round today data tasks a rest w index task title estStr
    actualStr k status :
  edit_pick a = Ok index ->
  tasks !! index = Some task ->
  promptWithCursor "Title" (Title task) (edit_title a) = Ok title ->
  promptWithCursor "Estimated (minutes)" (strconv.Itoa (Estimated task))
    (edit_est a) = Ok estStr ->
  promptWithCursor "Actual (minutes)" (strconv.Itoa (Actual task))
    (edit_actual a) = Ok actualStr ->
  edit_status a = Ok k ->
  status_items !! k = Some status ->
  let tasks' :=
    <[index := mkTask title (fst (strconv.Atoi estStr))
                 (fst (strconv.Atoi actualStr)) status (StartedAt task)]>
      tasks in
  editLoop today data tasks (a :: rest) w =
    editLoop today (<[today := tasks']> data) tasks' rest
      (snd (saveTasks (<[today := tasks']> data) w)).
Proof.
  intros Hpick Hi Ht He Ha Hs Hk tasks'. simpl.
  unfold Select_Run at 1. rewrite Hpick, Hi, Ht, He, Ha.
  unfold Select_Run. by rewrite Hs, Hk.
Qed.

Lemma edit_round_rewrites_one_task_aux clk (tommorow : bool) a w data index
    task title estStr actualStr k status :
  healthy w data ->
  let today := if tommorow then tomorrowKey clk else todayKey clk in
  edit_pick a = Ok index ->
  day_tasks data today !! index = Some task ->
  promptWithCursor "Title" (Title task) (edit_title a) = Ok title ->
  promptWithCursor "Estimated (minutes)" (strconv.Itoa (Estimated task))
    (edit_est a) = Ok estStr ->
  promptWithCursor "Actual (minutes)" (strconv.Itoa (Actual task))
    (edit_actual a) = Ok actualStr ->
  edit_status a = Ok k ->
  status_items !! k = Some status ->
  let w' := snd (listTasksInteractive clk tommorow [a] w) in
  stored_tasks w' today =
    <[index := mkTask title (fst (strconv.Atoi estStr))
                 (fst (strconv.Atoi actualStr)) status (StartedAt task)]>
      (day_tasks data today) /\
  forall day, day <> today -> stored_tasks w' day = day_tasks data day.
Proof.
  intros [Hl Hw] today Hpick Hi Ht He Ha Hs Hk w'.
  destruct (listTasksInteractive_enter clk tommorow [a] w data Hl)
    as [out Henter].
  { fold today. intros Hnil. by rewrite Hnil in Hi. }
  fold today in Henter. unfold w'. rewrite Henter.
  erewrite editLoop_round by done.
  unfold saveTasks. simpl. rewrite Hw. simpl.
  split; [apply stored_after_save|].
  intros day Hne. unfold stored_tasks. simpl. by apply day_tasks_insert_ne.
Qed.

(** X11: one complete round of the loop rewrites the picked task with the
    answers: the title as typed, the estimate and the actual minutes as
    [strconv.Atoi] reads them (0 for text that is not a number; nothing is
    validated here), and the status picked.  The task keeps its timer,
    no other task of the bucket changes and no other day changes. *)
Theorem edit_round_rewrites_one_task clk (tommorow : bool) a w data index
    task title estStr actualStr k status :
  healthy w data ->
  let today := if tommorow then tomorrowKey clk else todayKey clk in
  edit_pick a = Ok index ->
  day_tasks data today !! index = Some task ->
  promptWithCursor "Title" (Title task) (edit_title a) = Ok title ->
  promptWithCursor "Estimated (minutes)" (strconv.Itoa (Estimated task))
    (edit_est a) = Ok estStr ->
  promptWithCursor "Actual (minutes)" (strconv.Itoa (Actual task))
    (edit_actual a) = Ok actualStr ->
  edit_status a = Ok k ->
  status_items !! k = Some status ->
  let w' := snd (listTasksInteractive clk tommorow [a] w) in
  stored_tasks w' today =
    <[index := mkTask title (fst (strconv.Atoi estStr))
                 (fst (strconv.Atoi actualStr)) status (StartedAt task)]>
      (day_tasks data today) /\
  forall day, day <> today -> stored_tasks w' day = day_tasks data day.
Proof.
  intros Hw today Hpick Hi Ht He Ha Hs Hk.
  by apply (edit_round_rewrites_one_task_aux clk tommorow a w data index task
              title estStr actualStr k status).
Qed.

Lemma edit_round_rewrites_one_task_witness :
  stored_tasks
    (snd (listTasksInteractive sample_clock false
            [mkEditAnswers (Ok 2%nat) (Ok "plan the sprint") (Ok "an hour")
               (Ok "10") (Ok 2%nat)] sample_world)) sample_day =
    [mkTask "write report" 30 0 "pending" 0;
     mkTask "review patch" 60 5 "started" 1000;
     mkTask "plan the sprint" 0 10 "done" 0].
Proof.
  destruct (edit_round_rewrites_one_task sample_clock false
              (mkEditAnswers (Ok 2%nat) (Ok "plan the sprint") (Ok "an hour")
                 (Ok "10") (Ok 2%nat))
              sample_world sample_data 2
              (mkTask "plan sprint" 45 0 "pending" 0)
              "plan the sprint" "an hour" "10" 2 "done") as [Hstored _].
  - split; reflexivity.
  - reflexivity.
  - reflexivity.
  - reflexivity.
  - reflexivity.
  - reflexivity.
  - reflexivity.
  - reflexivity.
  - exact Hstored.
Defined.

Lemma promptWithCursor_Ok label defaultVal answer res :
  promptWithCursor label defaultVal answer = Ok res -> answer = Ok res.
Proof.
  unfold promptWithCursor. destruct answer as [r|e]; [|done].
  destruct (String.eqb r "q" && negb (String.eqb defaultVal "q")); [done|].
  by intros [= ->].
Qed.





(** X13: going through a round without changing anything changes nothing:
    when the user keeps the title, keeps the estimate and the actual
    minutes the prompts propose ([strconv.Itoa] of the stored numbers,
    read back by [strconv.Atoi]) and picks the status the task has, the
    bucket written is the bucket read. *)
Theorem edit_round_keeping_defaults clk (tommorow : bool) w data index task k :
  healthy w data ->
  let today := if tommorow then tomorrowKey clk else todayKey clk in
  day_tasks data today !! index = Some task ->
  GoInt.in_range (Estimated task) ->
  GoInt.in_range (Actual task) ->
  status_items !! k = Some (Status task) ->
  let a :=
    mkEditAnswers (Ok index) (Ok (Title task))
      (Ok (strconv.Itoa (Estimated task))) (Ok (strconv.Itoa (Actual task)))
      (Ok k) in
  stored_tasks (snd (listTasksInteractive clk tommorow [a] w)) today =
    day_tasks data today.
Proof.
  intros Hw today Hi Hest Hact Hk a.
  destruct (edit_round_rewrites_one_task_aux clk tommorow a w data index task
              (Title task) (strconv.Itoa (Estimated task))
              (strconv.Itoa (Actual task)) k (Status task)) as [Hstored _];
    try done.
  - unfold promptWithCursor. simpl.
    by destruct (String.eqb_spec (Title task) "q") as [->|_].
  - unfold promptWithCursor. simpl.
    assert (String.eqb (strconv.Itoa (Estimated task)) "q" = false) as ->
      by by apply String.eqb_neq, Itoa_not_q.
    done.
  - unfold promptWithCursor. simpl.
    assert (String.eqb (strconv.Itoa (Actual task)) "q" = false) as ->
      by by apply String.eqb_neq, Itoa_not_q.
    done.
  - fold today in Hstored. rewrite Hstored, !Atoi_Itoa by done. simpl.
    destruct task. by apply list_insert_id.
Qed.

Lemma edit_round_keeping_defaults_witness :
  stored_tasks
    (snd (listTasksInteractive sample_clock false
            [mkEditAnswers (Ok 1%nat) (Ok "review patch") (Ok "60") (Ok "5")
               (Ok 1%nat)] sample_world)) sample_day = sample_tasks.
Proof.
  apply (edit_round_keeping_defaults sample_clock false sample_world
           sample_data 1 (mkTask "review patch" 60 5 "started" 1000) 1).
  - split; reflexivity.
  - reflexivity.
  - fits_int.
  - fits_int.
  - reflexivity.
Defined.

(** ** Empty buckets *)

(** X14: on a day without tasks the list, delete and status commands ask
    nothing: each prints its one line, returns no error and leaves the
    file alone, whatever answers are waiting. *)
Theorem empty_bucket_commands clk w data :
  loadTasks w = (Ok data, w) ->
  day_tasks data (todayKey clk) = [] ->
  (forall rounds,
     listTasksInteractive clk false rounds w =
       (Ok tt,
        mkWorld (tasks_yaml w) (write_error w)
          (stdout w ++ [Text "No tasks available."])%list)) /\
  (forall pick,
     deleteTaskInteractive clk pick w =
       (Ok tt,
        mkWorld (tasks_yaml w) (write_error w)
          (stdout w ++ [Text "No tasks to delete."])%list)) /\
  (forall pick statusPick,
     selectTaskAndSetStatus clk pick statusPick w =
       (Ok tt,
        mkWorld (tasks_yaml w) (write_error w)
          (stdout w ++ [Text "No tasks available."])%list)).
Proof.
  intros Hl Hempty. split; [|split].
  - intros rounds. unfold listTasksInteractive, bind. rewrite Hl. simpl.
    by rewrite Hempty.
  - intros pick. unfold deleteTaskInteractive, bind. rewrite Hl. simpl.
    by rewrite Hempty.
  - intros pick statusPick. unfold selectTaskAndSetStatus, bind.
    rewrite Hl. simpl. by rewrite Hempty.
Qed.

Lemma empty_bucket_commands_witness :
  deleteTaskInteractive sample_clock (Ok 0%nat) (mkWorld Missing None []) =
    (Ok tt, mkWorld Missing None [Text "No tasks to delete."]).
Proof.
  destruct (empty_bucket_commands sample_clock (mkWorld Missing None []) ∅
              eq_refl eq_refl) as (_ & Hdelete & _).
  apply Hdelete.
Defined.

(** ** The totals of the report *)

Lemma achieved_work_spec_cons t tasks :
  achieved_work_spec (t :: tasks) =
    (if String.eqb (Status t) "done" then Estimated t else 0)
    + achieved_work_spec tasks.
Proof.
  unfold achieved_work_spec.
  destruct (String.eqb_spec (Status t) "done") as [Hd|Hd].
  - by rewrite filter_cons_True by done.
  - by rewrite filter_cons_False by done.
Qed.

Lemma achieved_work_spec_bounds tasks :
  Forall (fun t => 0 <= Estimated t) tasks ->
  0 <= achieved_work_spec tasks <= summed_estimates tasks.
Proof.
  induction 1 as [|t rest Ht _ IH]; [done|].
  rewrite achieved_work_spec_cons. simpl.
  destruct (String.eqb (Status t) "done"); lia.
Qed.

Lemma summed_actuals_nonneg tasks :
  Forall (fun t => 0 <= Actual t) tasks -> 0 <= summed_actuals tasks.
Proof. induction 1; simpl; lia. Qed.

Lemma summed_estimates_member tasks t :
  Forall (fun t => 0 <= Estimated t) tasks ->
  t ∈ tasks -> Estimated t <= summed_estimates tasks.
Proof.
  induction 1 as [|t0 rest Ht0 Hrest IH]; intros Hin.
  - by apply elem_of_nil in Hin.
  - pose proof (summed_estimates_nonneg rest Hrest).
    apply elem_of_cons in Hin as [->|Hin]; simpl; [lia|].
    specialize (IH Hin). lia.
Qed.

Lemma summed_actuals_member tasks t :
  Forall (fun t => 0 <= Actual t) tasks ->
  t ∈ tasks -> Actual t <= summed_actuals tasks.
Proof.
  induction 1 as [|t0 rest Ht0 Hrest IH]; intros Hin.
  - by apply elem_of_nil in Hin.
  - pose proof (summed_actuals_nonneg rest Hrest).
    apply elem_of_cons in Hin as [->|Hin]; simpl; [lia|].
    specialize (IH Hin). lia.
Qed.

Lemma tally_fields t acc :
  totalActual (tally acc t) = GoInt.add (totalActual acc) (Actual t) /\
  totalEst (tally acc t) = GoInt.add (totalEst acc) (Estimated t) /\
  achievedWork (tally acc t) =
    (if String.eqb (Status t) "done"
     then GoInt.add (achievedWork acc) (Estimated t) else achievedWork acc).
Proof.
  unfold tally. destruct (String.eqb (Status t) "done"); [done|]. simpl.
  by destruct (negb (String.eqb (Status t) "cancelled")).
Qed.

Lemma tally_totals tasks : forall acc,
  Forall (fun t => 0 <= Estimated t /\ 0 <= Actual t) tasks ->
  0 <= totalEst acc -> 0 <= totalActual acc -> 0 <= achievedWork acc ->
  totalEst acc + summed_estimates tasks <= GoInt.max_int ->
  totalActual acc + summed_actuals tasks <= GoInt.max_int ->
  achievedWork acc <= totalEst acc ->
  totalEst (fold_left tally tasks acc) = totalEst acc + summed_estimates tasks
  /\ totalActual (fold_left tally tasks acc) =
       totalActual acc + summed_actuals tasks
  /\ achievedWork (fold_left tally tasks acc) =
       achievedWork acc + achieved_work_spec tasks.
Proof.
  induction tasks as [|t rest IH];
    intros acc Hpos HE HA HW HmaxE HmaxA Hle.
  - unfold achieved_work_spec. simpl. lia.
  - apply Forall_cons in Hpos as [[HtE HtA] Hpos].
    assert (Forall (fun t => 0 <= Estimated t) rest) as HposE.
    { eapply Forall_impl; [done|]. by intros ? [? _]. }
    assert (Forall (fun t => 0 <= Actual t) rest) as HposA.
    { eapply Forall_impl; [exact Hpos|]. intros ? [_ Hnn]. exact Hnn. }
    pose proof (summed_estimates_nonneg rest HposE).
    pose proof (summed_actuals_nonneg rest HposA).
    pose proof (achieved_work_spec_bounds rest HposE).
    rewrite achieved_work_spec_cons. simpl in *.
    destruct (tally_fields t acc) as (HfA & HfE & HfW).
    assert (forall a b, 0 <= a -> 0 <= b -> a + b <= GoInt.max_int ->
                        GoInt.add a b = a + b) as Hadd.
    { intros a b Ha Hb Hab. apply GoIntFacts.add_exact.
      unfold GoInt.in_range, GoInt.min_int, GoInt.max_int in *. lia. }
    rewrite Hadd in HfA, HfE by lia.
    destruct (String.eqb (Status t) "done").
    + rewrite Hadd in HfW by lia.
      destruct (IH (tally acc t)) as (-> & -> & ->); (done || lia).
    + destruct (IH (tally acc t)) as (-> & -> & ->); (done || lia).
Qed.

(** X15: the other three totals of the report are the sums they are named
    after: planned minutes are the sum of the estimates, worked minutes
    the sum of the actual minutes, achieved minutes the sum of the
    estimates of the done tasks.  The achieved and the remaining work
    together never exceed the plan.  Estimates and actual minutes are
    non-negative and the two sums fit a 64-bit integer. *)
Theorem report_totals tasks :
  Forall (fun t => 0 <= Estimated t /\ 0 <= Actual t) tasks ->
  summed_estimates tasks <= GoInt.max_int ->
  summed_actuals tasks <= GoInt.max_int ->
  totalEst (dayTotals tasks) = summed_estimates tasks /\
  totalActual (dayTotals tasks) = summed_actuals tasks /\
  achievedWork (dayTotals tasks) = achieved_work_spec tasks /\
  0 <= achievedWork (dayTotals tasks) /\
  0 <= remainingWork (dayTotals tasks) /\
  achievedWork (dayTotals tasks) + remainingWork (dayTotals tasks)
    <= totalEst (dayTotals tasks).
Proof.
  intros Hpos HmaxE HmaxA.
  destruct (tally_totals tasks (mkTotals 0 0 0 0)) as (HE & HA & HW);
    simpl; try (done || lia).
  unfold dayTotals. rewrite HE, HA, HW. simpl.
  split; [done|]. split; [done|]. split; [done|].
  assert (Forall (fun t => 0 <= Estimated t) tasks) as HposE.
  { eapply Forall_impl; [done|]. by intros ? [? _]. }
  assert (Forall (fun t => 0 <= Actual t) tasks) as HposA.
  { eapply Forall_impl; [exact Hpos|]. intros ? [_ Hnn]. exact Hnn. }
  assert (achieved_work_spec tasks + remaining_work_spec tasks
          <= summed_estimates tasks) as Hsplit.
  { clear -Hpos. induction Hpos as [|t rest [HtE HtA] _ IH].
    - unfold achieved_work_spec, remaining_work_spec. simpl. lia.
    - rewrite achieved_work_spec_cons, remaining_work_spec_cons. simpl.
      destruct (String.eqb (Status t) "done"),
        (String.eqb (Status t) "cancelled"); lia. }
  pose proof (remaining_work_spec_nonneg tasks).
  pose proof (achieved_work_spec_bounds tasks HposE).
  rewrite tally_remaining; simpl; (done || lia || idtac).
  apply Forall_forall. intros t Hin.
  pose proof (proj1 (Forall_forall _ _) Hpos t Hin) as [HtE HtA].
  pose proof (summed_estimates_member tasks t HposE Hin).
  pose proof (summed_actuals_member tasks t HposA Hin).
  unfold GoInt.in_range, GoInt.min_int, GoInt.max_int in *. lia.
Qed.

Lemma report_totals_witness :
  totalEst (dayTotals sample_tasks) = 135 /\
  totalActual (dayTotals sample_tasks) = 5 /\
  achievedWork (dayTotals two_task_tasks) = 45 /\
  achievedWork (dayTotals two_task_tasks)
    + remainingWork (dayTotals two_task_tasks)
    <= totalEst (dayTotals two_task_tasks).
Proof.
  destruct (report_totals sample_tasks) as (HE & HA & _).
  - repeat constructor; discriminate.
  - vm_compute. discriminate.
  - vm_compute. discriminate.
  - destruct (report_totals two_task_tasks) as (_ & _ & HW & _ & _ & Hle).
    + repeat constructor; discriminate.
    + vm_compute. discriminate.
    + vm_compute. discriminate.
    + split; [rewrite HE; reflexivity|]. split; [rewrite HA; reflexivity|].
      split; [rewrite HW; reflexivity | exact Hle].
Defined.

(** ** The minutes left, over the day *)

Lemma minutes_div_mono a b :
  a <= b -> a / time.Minute <= b / time.Minute.
Proof. intros Hab. by apply Z.div_le_mono. Qed.

(** X16: the minutes left are always between 0 and 480, and they never grow
    as the day advances: a later time of day leaves at most as many
    minutes as an earlier one. *)
Theorem minutes_left_bounded_and_shrinking now later :
  now <= later ->
  0 <= remainingMinutesToday later <= remainingMinutesToday now /\
  remainingMinutesToday now <= 480.
Proof.
  intros Hle.
  pose proof (remainingMinutesToday_bounds now) as Hn.
  pose proof (remainingMinutesToday_bounds later) as Hl.
  split; [|lia]. split; [lia|].
  destruct (Z.lt_ge_cases now (time.Date 8 30)) as [?|Hn1].
  { rewrite (remaining_early now) by done. lia. }
  destruct (Z.lt_ge_cases (time.Date 17 30) later) as [?|Hl1].
  { rewrite (remaining_late later) by done. lia. }
  assert (time.Date 8 30 < time.Date 12 30 < time.Date 13 30) as Hord1
    by (split; reflexivity).
  assert (time.Date 13 30 < time.Date 17 30) as Hord2 by reflexivity.
  destruct (Z.lt_ge_cases now (time.Date 12 30)) as [Hn2|Hn2].
  - rewrite (remaining_morning now) by lia.
    pose proof (proj2 (whole_minutes_floor (time.Date 12 30 - now)
                         ltac:(lia))) as Hq.
    destruct (Z.lt_ge_cases later (time.Date 12 30)) as [Hl2|Hl2].
    { rewrite (remaining_morning later) by lia.
      pose proof (minutes_div_mono (time.Date 12 30 - later)
                    (time.Date 12 30 - now) ltac:(lia)). lia. }
    destruct (Z.lt_ge_cases later (time.Date 13 30)) as [Hl3|Hl3].
    { rewrite (remaining_lunch later) by lia. lia. }
    rewrite (remaining_afternoon later) by lia.
    pose proof (whole_minutes_le (time.Date 17 30 - later) 240) as Hcap.
    unfold time.Date, time.Hour, time.Minute, time.Second in *. lia.
  - destruct (Z.lt_ge_cases now (time.Date 13 30)) as [Hn3|Hn3].
    + rewrite (remaining_lunch now) by lia.
      destruct (Z.lt_ge_cases later (time.Date 13 30)) as [Hl3|Hl3].
      { rewrite (remaining_lunch later) by lia. lia. }
      rewrite (remaining_afternoon later) by lia.
      pose proof (whole_minutes_le (time.Date 17 30 - later) 240) as Hcap.
      unfold time.Date, time.Hour, time.Minute, time.Second in *. lia.
    + rewrite (remaining_afternoon now), (remaining_afternoon later) by lia.
      apply minutes_div_mono. lia.
Qed.

Lemma minutes_left_bounded_and_shrinking_witness :
  0 <= remainingMinutesToday (time.Date 15 0)
    <= remainingMinutesToday (time.Date 9 0) /\
  remainingMinutesToday (time.Date 9 0) <= 480.
Proof.
  apply (minutes_left_bounded_and_shrinking (time.Date 9 0) (time.Date 15 0)).
  vm_compute. discriminate.
Defined.

(** ** Bar colours *)

(** X17: on the inverted scale, which the remaining-work bar uses, the bar is
    red exactly when the ratio is at least 1.0; on the plain scale it is
    blue exactly then.  So once no working minute is left the
    remaining-work bar is red, whatever work remains. *)
Theorem full_ratio_colours :
  (forall ratio,
     setColorGradient ratio true = "#f53333" <-> PrimFloat.leb 1 ratio = true)
  /\
  (forall ratio,
     setColorGradient ratio false = "#03befc" <-> PrimFloat.leb 1 ratio = true)
  /\
  (forall tasks now,
     time.Date 17 30 <= now ->
     setColorGradient
       (workloadRatio (remainingWork (dayTotals tasks))
          (remainingMinutesToday now)) true = "#f53333").
Proof.
  split; [|split].
  - intros ratio. unfold setColorGradient.
    destruct (PrimFloat.leb 1 ratio); [done|].
    destruct (PrimFloat.leb 0.9 ratio); [done|].
    destruct (PrimFloat.leb 0.8 ratio); [done|].
    destruct (PrimFloat.leb 0.7 ratio); [done|].
    by destruct (PrimFloat.leb 0.6 ratio).
  - intros ratio. unfold setColorGradient.
    destruct (PrimFloat.leb 1 ratio); [done|].
    destruct (PrimFloat.leb 0.9 ratio); [done|].
    destruct (PrimFloat.leb 0.7 ratio); [done|].
    destruct (PrimFloat.leb 0.6 ratio); [done|].
    by destruct (PrimFloat.leb 0.5 ratio).
  - intros tasks now Hlate.
    assert (remainingMinutesToday now = 0) as ->.
    { destruct (Z.eq_dec now (time.Date 17 30)) as [->|Hne]; [done|].
      apply remaining_late. lia. }
    reflexivity.
Qed.

(** ** [formatDuration] *)

Lemma Round_to_second d :
  0 <= d <= GoInt.max_int - time.Second ->
  duration.Round d time.Second = (d + 500000000) / time.Second * time.Second.
Proof.
  intros Hd. unfold duration.Round, duration.lessThanHalf.
  change time.Second with 1000000000 in *.
  change GoInt.max_int with 9223372036854775807 in *.
  change (1000000000 <=? 0) with false. cbv iota.
  destruct (Z.ltb_spec d 0); [lia|].
  rewrite Z.rem_mod_nonneg by lia.
  pose proof (Z.mod_pos_bound d 1000000000 ltac:(lia)) as Hr.
  rewrite (Z.mod_small (d mod 1000000000) (2 ^ 64)) by lia.
  rewrite (Z.mod_small (_ + _) (2 ^ 64)) by lia.
  change (1000000000 mod 2 ^ 64) with 1000000000.
  destruct (Z.ltb_spec (d mod 1000000000 + d mod 1000000000) 1000000000).
  - rewrite GoIntFacts.sub_exact
      by (unfold GoInt.in_range, GoInt.min_int, GoInt.max_int; lia).
    Z.div_mod_to_equations. lia.
  - rewrite (GoIntFacts.add_exact d)
      by (unfold GoInt.in_range, GoInt.min_int, GoInt.max_int; lia).
    rewrite GoIntFacts.sub_exact
      by (unfold GoInt.in_range, GoInt.min_int, GoInt.max_int; lia).
    destruct (Z.gtb_spec (d + 1000000000 - d mod 1000000000) d); [|lia].
    Z.div_mod_to_equations. lia.
Qed.

Lemma fields_of_whole_seconds n :
  0 <= n -> n * time.Second <= GoInt.max_int ->
  let d := n * time.Second in
  let h := GoInt.quo d time.Hour in
  let d1 := GoInt.sub d (GoInt.wrap (h * time.Hour)) in
  let m := GoInt.quo d1 time.Minute in
  let d2 := GoInt.sub d1 (GoInt.wrap (m * time.Minute)) in
  let s := GoInt.quo d2 time.Second in
  h = n / 3600 /\ m = n mod 3600 / 60 /\ s = n mod 60.
Proof.
  intros Hn Hmax d h d1 m d2 s.
  change time.Second with 1000000000 in *.
  change time.Minute with 60000000000 in *.
  change time.Hour with 3600000000000 in *.
  change GoInt.max_int with 9223372036854775807 in *.
  assert (forall z, 0 <= z <= 9223372036854775807 -> GoInt.wrap z = z) as Hwrap.
  { intros z Hz. apply GoIntFacts.wrap_id.
    unfold GoInt.in_range, GoInt.min_int, GoInt.max_int. lia. }
  assert (h = n / 3600) as Hh.
  { unfold h, GoInt.quo. rewrite Z.quot_div_nonneg by lia.
    rewrite Hwrap by (unfold d; Z.div_mod_to_equations; lia).
    unfold d. Z.div_mod_to_equations. lia. }
  assert (d1 = n mod 3600 * 1000000000) as Hd1.
  { unfold d1, GoInt.sub. rewrite Hh.
    rewrite (Hwrap (n / 3600 * 3600000000000))
      by (unfold d in *; Z.div_mod_to_equations; lia).
    rewrite Hwrap by (unfold d in *; Z.div_mod_to_equations; lia).
    unfold d. Z.div_mod_to_equations. lia. }
  assert (m = n mod 3600 / 60) as Hm.
  { unfold m, GoInt.quo. rewrite Hd1.
    rewrite Z.quot_div_nonneg by (Z.div_mod_to_equations; lia).
    rewrite Hwrap by (Z.div_mod_to_equations; lia).
    Z.div_mod_to_equations. lia. }
  assert (d2 = n mod 60 * 1000000000) as Hd2.
  { unfold d2, GoInt.sub. rewrite Hm, Hd1.
    rewrite (Hwrap (n mod 3600 / 60 * 60000000000))
      by (Z.div_mod_to_equations; lia).
    rewrite Hwrap by (Z.div_mod_to_equations; lia).
    Z.div_mod_to_equations. lia. }
  split; [done|]. split; [done|].
  unfold s, GoInt.quo. rewrite Hd2.
  rewrite Z.quot_div_nonneg by (Z.div_mod_to_equations; lia).
  rewrite Hwrap by (Z.div_mod_to_equations; lia).
  Z.div_mod_to_equations. lia.
Qed.

(** X18: for a duration that is not negative, [formatDuration] prints the
    duration rounded to the nearest second (half a second rounds up),
    split into hours, minutes below 60 and seconds below 60 that add up to
    that number of seconds; the hours are printed only when there are
    some. *)
Theorem formatDuration_recombines d :
  0 <= d <= GoInt.max_int - time.Second ->
  exists h m s,
    0 <= h /\ 0 <= m < 60 /\ 0 <= s < 60 /\
    h * 3600 + m * 60 + s = (d + 500000000) / time.Second /\
    formatDuration d =
      if h >? 0 then
        strconv.Itoa h +:+ "h " +:+ strconv.Itoa m +:+ "m "
          +:+ strconv.Itoa s +:+ "s"
      else strconv.Itoa m +:+ "m " +:+ strconv.Itoa s +:+ "s".
Proof.
  intros Hd. set (n := (d + 500000000) / time.Second).
  assert (0 <= n /\ n * time.Second <= GoInt.max_int) as [Hn Hmax].
  { unfold n. change time.Second with 1000000000 in *.
    change GoInt.max_int with 9223372036854775807 in *.
    Z.div_mod_to_equations. lia. }
  destruct (fields_of_whole_seconds n Hn Hmax) as (Hh & Hm & Hs).
  exists (n / 3600), (n mod 3600 / 60), (n mod 60).
  split; [Z.div_mod_to_equations; lia|].
  split; [Z.div_mod_to_equations; lia|].
  split; [Z.div_mod_to_equations; lia|].
  split; [Z.div_mod_to_equations; lia|].
  unfold formatDuration, formatDuration_fields.
  rewrite Round_to_second by done. fold n. cbv zeta.
  by rewrite Hs, Hm, Hh.
Qed.

Lemma formatDuration_recombines_witness :
  exists h m s,
    0 <= h /\ 0 <= m < 60 /\ 0 <= s < 60 /\
    h * 3600 + m * 60 + s = 3661 /\
    formatDuration (3660 * time.Second + 500000000) =
      if h >? 0 then
        strconv.Itoa h +:+ "h " +:+ strconv.Itoa m +:+ "m "
          +:+ strconv.Itoa s +:+ "s"
      else strconv.Itoa m +:+ "m " +:+ strconv.Itoa s +:+ "s".
Proof.
  apply (formatDuration_recombines (3660 * time.Second + 500000000)).
  vm_compute. split; discriminate.
Defined.

(** ** [addTaskInteractive]: all the outcomes *)

Lemma Atoi_in_range input : GoInt.in_range (fst (strconv.Atoi input)).
Proof.
  unfold strconv.Atoi.
  destruct (match input with
            | String "-" rest => (true, rest)
            | String "+" rest => (false, rest)
            | _ => (false, input)
            end) as [negative body].
  assert (GoInt.in_range 0) as Hz
    by (unfold GoInt.in_range, GoInt.min_int, GoInt.max_int; lia).
  destruct body as [|c body']; [done|].
  destruct (strconv.digits (String c body') 0) as [n|]; [|done].
  destruct (Z.ltb_spec (if negative then - n else n) GoInt.min_int);
    [simpl; unfold GoInt.in_range, GoInt.min_int, GoInt.max_int; lia|].
  destruct (Z.gtb_spec (if negative then - n else n) GoInt.max_int);
    simpl; unfold GoInt.in_range, GoInt.min_int, GoInt.max_int in *; lia.
Qed.

(** X19: whatever is answered and whatever state the file is in, creating a
    task either leaves the file as it was, or writes the file it read with
    exactly one task appended to the addressed day: the title as typed,
    a positive estimate, no actual minutes, pending, no timer.  Nothing
    else of any day is altered; a missing file reads as no days.  And
    the title "q" always cancels: no task, no error, no output. *)
Theorem addTaskInteractive_outcomes clk (tommorow : bool) titleAnswer
    estAnswers w :
  let today := if tommorow then tomorrowKey clk else todayKey clk in
  let w' := snd (addTaskInteractive clk tommorow titleAnswer estAnswers w) in
  (tasks_yaml w' = tasks_yaml w \/
   exists data title estimated,
     loadTasks w = (Ok data, w) /\
     titleAnswer = Ok title /\
     0 < estimated <= GoInt.max_int /\
     tasks_yaml w' =
       Holds (<[today := (day_tasks data today ++
                          [mkTask title estimated 0 "pending" 0])%list]> data))
  /\
  (titleAnswer = Ok "q" ->
   forall data, loadTasks w = (Ok data, w) ->
   addTaskInteractive clk tommorow titleAnswer estAnswers w = (Ok tt, w)).
Proof.
  intros today w'. split.
  - unfold w', addTaskInteractive, bind.
    destruct (loadTasks w) as [[data|e] w0] eqn:Hl.
    2:{ pose proof (loadTasks_keeps w) as Hk. rewrite Hl in Hk. simpl in *.
        left. by subst. }
    pose proof (loadTasks_keeps w) as Hk. rewrite Hl in Hk. simpl in Hk.
    subst w0. fold today.
    destruct (promptWithCursor "Task Title" "" titleAnswer) as [title|e]
      eqn:Htitle; [|left; by rewrite prompt_failed_keeps].
    destruct (Prompt_Run estimate_valid estAnswers) as [estInput|e] eqn:Hest;
      [|left; by rewrite prompt_failed_keeps].
    apply promptWithCursor_Ok in Htitle.
    apply Prompt_Run_accepts, estimate_valid_spec in Hest as [_ Hpos].
    pose proof (Atoi_in_range estInput) as [_ Hmax].
    destruct (write_error w) as [e|] eqn:Hwrite.
    + left. destruct (_ >? _); simpl; unfold saveTasks; simpl;
        by rewrite Hwrite.
    + right. exists data, title, (fst (strconv.Atoi estInput)).
      split; [done|]. split; [done|]. split; [done|].
      destruct (_ >? _); simpl; unfold saveTasks; simpl; by rewrite Hwrite.
  - intros -> data Hl. unfold addTaskInteractive, bind. by rewrite Hl.
Qed.

(** ** Notes *)

Lemma numbered_notes_app (notes : list string) note : forall i,
  0 <= i ->
  i + Z.of_nat (length notes) < GoInt.max_int ->
  numbered_notes i (notes ++ [note])%list =
    (numbered_notes i notes ++
     [strconv.Itoa (i + Z.of_nat (length notes) + 1) +:+ ". " +:+ note])%list.
Proof.
  induction notes as [|n rest IH]; intros i Hi Hmax; simpl in *.
  - rewrite GoIntFacts.add_exact
      by (unfold GoInt.in_range, GoInt.min_int, GoInt.max_int in *; lia).
    by rewrite Z.add_0_r.
  - rewrite GoIntFacts.add_exact
      by (unfold GoInt.in_range, GoInt.min_int, GoInt.max_int in *; lia).
    rewrite IH by (unfold GoInt.max_int in *; lia).
    replace (i + 1 + Z.of_nat (length rest) + 1)
      with (i + Z.of_nat (S (length rest)) + 1) by lia.
    done.
Qed.

Lemma day_notes_insert (data : NoteData) day notes :
  day_notes (<[day := notes]> data) day = notes.
Proof. unfold day_notes. by rewrite lookup_insert_eq. Qed.

(** X20: a note added for today is stored after the notes the day already
    has, in a file otherwise unchanged, and the next listing prints the
    earlier lines as before followed by the new note, numbered one past
    the others. *)
Theorem note_added_is_listed_last clk note w data :
  loadNotes w = Ok data ->
  notes_write_error w = None ->
  Z.of_nat (length (day_notes data (todayKey clk))) < GoInt.max_int ->
  exists w',
    addNoteForToday clk note w = (Ok tt, w') /\
    notes_yaml w' =
      NotesHold (<[todayKey clk :=
                   (day_notes data (todayKey clk) ++ [note])%list]> data) /\
    showNotesForToday clk w' =
      (Ok tt,
       mkNotesWorld (notes_yaml w') (notes_write_error w')
         (notes_stdout w
          ++ ("Notes for today (" +:+ todayKey clk +:+ "):")
             :: numbered_notes 0 (day_notes data (todayKey clk))
          ++ [strconv.Itoa
                (Z.of_nat (length (day_notes data (todayKey clk))) + 1)
              +:+ ". " +:+ note])%list).
Proof.
  intros Hl Hw Hlen. unfold addNoteForToday. rewrite Hl.
  unfold saveNotes. rewrite Hw. eexists. split; [done|]. split; [done|].
  unfold showNotesForToday, loadNotes. simpl.
  rewrite !day_notes_insert, length_app. simpl.
  destruct (length (day_notes data (todayKey clk)) + 1)%nat eqn:Hn; [lia|].
  simpl. rewrite numbered_notes_app by (unfold GoInt.max_int in *; lia).
  by rewrite Z.add_0_l.
Qed.

Lemma note_added_is_listed_last_witness :
  exists w',
    addNoteForToday sample_clock "call the printer"
      (mkNotesWorld (NotesHold {[ sample_day := ["buy paper"] ]}) None []) =
      (Ok tt, w') /\
    snd (showNotesForToday sample_clock w') =
      mkNotesWorld
        (NotesHold {[ sample_day := ["buy paper"; "call the printer"] ]})
        None
        ["Notes for today (2025-03-14):"; "1. buy paper";
         "2. call the printer"].
Proof.
  destruct (note_added_is_listed_last sample_clock "call the printer"
              (mkNotesWorld (NotesHold {[ sample_day := ["buy paper"] ]})
                 None [])
              {[ sample_day := ["buy paper"] ]})
    as (w' & Hadd & Hfile & Hshow).
  - reflexivity.
  - reflexivity.
  - vm_compute. reflexivity.
  - exists w'. split; [exact Hadd|].
    injection Hadd as <-. vm_compute. reflexivity.
Defined.

(** ** [currentTask] and [finishCurrentTask] agree *)

(** X21: what the current-task display shows is what finishing would book:
    for the first started task of today, with its timer set and the clock
    past it, the command prints the whole minutes since the start, in
    both of its lines, and writes nothing; finishing at the same clock
    reading adds exactly that number of minutes to the task. *)
Theorem currentTask_shows_what_finish_books ViewAs clk w data i t :
  healthy w data ->
  first_with_status "started" (day_tasks data (todayKey clk)) i t ->
  StartedAt t <> 0 ->
  StartedAt t <= Unix clk ->
  GoInt.in_range (Unix clk - StartedAt t) ->
  GoInt.in_range (Actual t + (Unix clk - StartedAt t) / 60) ->
  let elapsed := (Unix clk - StartedAt t) / 60 in
  let clock := PrimFloat.div (float64 elapsed) (float64 (Estimated t)) in
  currentTask ViewAs clk w =
    (Ok tt,
     mkWorld (tasks_yaml w) (write_error w)
       (stdout w ++
        [Text ("Task Clock: " +:+ ViewAs (setColorGradient clock true) clock
               +:+ " [" +:+ strconv.Itoa elapsed +:+ "/"
               +:+ strconv.Itoa (Estimated t) +:+ " min used]"
               +:+ newline +:+ newline);
         Text ("Current task: [" +:+ strconv.Itoa (Z.of_nat i) +:+ "] "
               +:+ Title t +:+ " - started " +:+ strconv.Itoa elapsed
               +:+ "min ago" +:+ newline)])%list)
  /\
  stored_tasks (snd (finishCurrentTask clk w)) (todayKey clk) !! i =
    Some (mkTask (Title t) (Estimated t) (Actual t + elapsed) "done" 0).
Proof.
  intros Hw Hfirst Hrun Hfwd Hspan Hsum elapsed clock. split.
  - unfold currentTask, bind. rewrite (proj1 Hw).
    rewrite (firstStarted_found _ i t) by done.
    rewrite elapsed_floor by done. fold elapsed clock.
    unfold printf, print. simpl. by rewrite <- app_assoc.
  - unfold finishCurrentTask, bind. rewrite (proj1 Hw).
    rewrite (firstStarted_found _ i t) by done.
    destruct Hfirst as (Hi & _ & _).
    erewrite updateStatus_run by done. simpl.
    rewrite stored_after_save, list_lookup_alter_eq, Hi. simpl.
    by rewrite applyStatus_settle_forward
      by (done || rewrite !elem_of_cons; auto).
Qed.

Lemma currentTask_shows_what_finish_books_witness :
  stdout (snd (currentTask (fun fill percent => fill) sample_clock sample_world)) =
    [Text ("Task Clock: #03befc [10/60 min used]" +:+ newline +:+ newline);
     Text ("Current task: [1] review patch - started 10min ago" +:+ newline)]
  /\
  stored_tasks (snd (finishCurrentTask sample_clock sample_world)) sample_day
    !! 1%nat = Some (mkTask "review patch" 60 15 "done" 0).
Proof.
  destruct (currentTask_shows_what_finish_books (fun fill percent => fill)
              sample_clock sample_world sample_data 1
              (mkTask "review patch" 60 5 "started" 1000))
    as [Hshow Hbook].
  - split; reflexivity.
  - split; [reflexivity|]. split; [reflexivity|].
    intros [|j] tj Hlt Hl; [injection Hl as <-; discriminate|].
    apply Nat.succ_lt_mono in Hlt. by apply Nat.nlt_0_r in Hlt.
  - discriminate.
  - vm_compute. discriminate.
  - fits_int.
  - fits_int.
  - split; [rewrite Hshow; reflexivity | exact Hbook].
Defined.
